(** * validate_pipeline.py: the pre-flight validator of the SMS pipeline

    A shallow embedding of [src/validate_pipeline.py].  The script talks to
    the operating system only (stat, subprocess, sockets, DNS); the answers
    of the operating system are gathered in an [environment] record and the
    script is a program in a small state-and-exception monad over the state
    of the process (the validator object, what was printed, the sockets).

    An answer of the operating system is a value or an exception of any
    class; [print], [sock.settimeout(3)] and [sock.close()] are taken to
    return.  [main] is modelled up to the argument of [sys.exit]. *)

From Stdlib Require Import String Ascii List ZArith Arith Bool Lia DecimalString.
Import ListNotations.
Open Scope string_scope.

(** ** Python strings

    A [str] is modelled by the bytes of its UTF-8 encoding. *)

Module PyStr.

Definition LF : ascii := ascii_of_nat 10.

Definition of_bytes (l : list nat) : string :=
  string_of_list_ascii (map ascii_of_nat l).

Definition rev (s : string) : string :=
  string_of_list_ascii (List.rev (list_ascii_of_string s)).

(** The code points [str.isspace] accepts, UTF-8 encoded: U+0009..U+000D,
    U+001C..U+0020, U+0085, U+00A0, U+1680, U+2000..U+200A, U+2028, U+2029,
    U+202F, U+205F and U+3000. *)
Definition whitespace : list string :=
  map of_bytes
    [ [9]; [10]; [11]; [12]; [13]; [28]; [29]; [30]; [31]; [32];
      [194; 133]; [194; 160]; [225; 154; 128];
      [226; 128; 128]; [226; 128; 129]; [226; 128; 130]; [226; 128; 131];
      [226; 128; 132]; [226; 128; 133]; [226; 128; 134]; [226; 128; 135];
      [226; 128; 136]; [226; 128; 137]; [226; 128; 138];
      [226; 128; 168]; [226; 128; 169]; [226; 128; 175];
      [226; 129; 159]; [227; 128; 128] ].

Fixpoint drop_prefix (p s : string) : option string :=
  match p with
  | EmptyString => Some s
  | String a p' =>
      match s with
      | EmptyString => None
      | String b s' => if Ascii.eqb a b then drop_prefix p' s' else None
      end
  end.

Fixpoint drop_any (ps : list string) (s : string) : option string :=
  match ps with
  | [] => None
  | p :: ps' =>
      match drop_prefix p s with
      | Some r => Some r
      | None => drop_any ps' s
      end
  end.

Fixpoint lstrip_with (fuel : nat) (ps : list string) (s : string) : string :=
  match fuel with
  | O => s
  | S fuel' =>
      match drop_any ps s with
      | Some r => lstrip_with fuel' ps r
      | None => s
      end
  end.

(** [s.lstrip()], [s.rstrip()] and [s.strip()]. *)
Definition lstrip (s : string) : string :=
  lstrip_with (String.length s) whitespace s.

Definition rstrip (s : string) : string :=
  rev (lstrip_with (String.length s) (map rev whitespace) (rev s)).

Definition strip (s : string) : string := rstrip (lstrip s).

(** [s.split(sep)] for a separator of one character, which both calls of
    the script use (['\n'] and [':']). *)
Fixpoint split (sep : ascii) (s : string) : list string :=
  match s with
  | EmptyString => [EmptyString]
  | String c s' =>
      if Ascii.eqb c sep then EmptyString :: split sep s'
      else match split sep s' with
           | h :: t => String c h :: t
           | [] => [String c EmptyString]
           end
  end.

(** [s * n]. *)
Fixpoint mul (s : string) (n : nat) : string :=
  match n with
  | O => EmptyString
  | S n' => s ++ mul s n'
  end.

(** [x in l] on a list of strings. *)
Definition contains (l : list string) (x : string) : bool :=
  existsb (String.eqb x) l.

(** [str(n)] for an [int] and for a length. *)
Definition of_int (z : Z) : string := NilZero.string_of_int (Z.to_int z).
Definition of_len (n : nat) : string := NilZero.string_of_uint (Nat.to_uint n).

End PyStr.

(** ** Python exceptions

    The classes an operating-system call of the script can raise, with the
    part of the class hierarchy the [except] clauses look at. *)

Inductive exc_class : Type :=
| BaseException
| KeyboardInterrupt
| SystemExit
| Exception
| MemoryError
| RuntimeError
| LookupError
| IndexError
| ValueError
| UnicodeError
| OSError
| FileNotFoundError
| PermissionError
| TimeoutError
| herror
| gaierror.

Definition exc_class_eqb (a b : exc_class) : bool :=
  match a, b with
  | BaseException, BaseException | KeyboardInterrupt, KeyboardInterrupt
  | SystemExit, SystemExit | Exception, Exception
  | MemoryError, MemoryError | RuntimeError, RuntimeError
  | LookupError, LookupError | IndexError, IndexError
  | ValueError, ValueError | UnicodeError, UnicodeError
  | OSError, OSError | FileNotFoundError, FileNotFoundError
  | PermissionError, PermissionError | TimeoutError, TimeoutError
  | herror, herror | gaierror, gaierror => true
  | _, _ => false
  end.

(** The base class of a class ([BaseException] has none). *)
Definition base_class (c : exc_class) : option exc_class :=
  match c with
  | BaseException => None
  | KeyboardInterrupt | SystemExit | Exception => Some BaseException
  | MemoryError | RuntimeError | LookupError | ValueError | OSError =>
      Some Exception
  | IndexError => Some LookupError
  | UnicodeError => Some ValueError
  | FileNotFoundError | PermissionError | TimeoutError | herror | gaierror =>
      Some OSError
  end.

Fixpoint issubclass_fuel (fuel : nat) (c d : exc_class) : bool :=
  exc_class_eqb c d ||
  match fuel with
  | O => false
  | S fuel' =>
      match base_class c with
      | Some b => issubclass_fuel fuel' b d
      | None => false
      end
  end.

(** The hierarchy above is three levels deep. *)
Definition issubclass (c d : exc_class) : bool := issubclass_fuel 3 c d.

(** An exception object: its class and the text [str(e)] gives. *)
Record exception : Type := mkException {
  exc_type : exc_class;
  exc_str : string
}.

Definition isinstance (e : exception) (d : exc_class) : bool :=
  issubclass (exc_type e) d.

(** ** The environment: what the operating system answers *)

(** [subprocess.CompletedProcess] with captured text output. *)
Record CompletedProcess : Type := mkCompletedProcess {
  returncode : Z;
  stdout : string;
  stderr : string
}.

Record environment : Type := mkEnvironment {
  (** [os.stat(path)]: [None] when it returns, the exception otherwise. *)
  os_stat : string -> option exception;
  (** [subprocess.run(argv, capture_output=True, text=True)]. *)
  subprocess_run : list string -> exception + CompletedProcess;
  (** [socket.socket(AF_INET, SOCK_STREAM)], by the number of sockets the
      process has created so far: [None] when the socket is created. *)
  socket_socket : nat -> option exception;
  (** [sock.connect_ex((host, port))] under the timeout of the socket. *)
  socket_connect_ex : string -> Z -> option Z -> exception + Z;
  (** [socket.gethostbyname(host)]. *)
  socket_gethostbyname : string -> exception + string;
  (** [str(datetime.now())]. *)
  datetime_now : string
}.

(** ** The state of the process *)

Record PipelineValidator : Type := mkPipelineValidator {
  errors : list string;
  warnings : list string
}.

Record socket_object : Type := mkSocket {
  sock_closed : bool;
  sock_timeout : option Z
}.

Record state : Type := mkState {
  validator : PipelineValidator;
  (** the arguments of the calls of [print], oldest first *)
  sys_stdout : list string;
  (** the sockets created so far, by creation order *)
  sockets : list socket_object
}.

(** ** The monad: state and exceptions *)

Inductive result (A : Type) : Type :=
| Ok (a : A)
| Raise (e : exception).
Arguments Ok {A} a.
Arguments Raise {A} e.

Definition M (A : Type) : Type := state -> result A * state.

Definition ret {A} (a : A) : M A := fun s => (Ok a, s).

Definition raise {A} (e : exception) : M A := fun s => (Raise e, s).

Definition bind {A B} (m : M A) (k : A -> M B) : M B :=
  fun s =>
    match m s with
    | (Ok a, s') => k a s'
    | (Raise e, s') => (Raise e, s')
    end.

Declare Scope py_scope.
Delimit Scope py_scope with py.
Notation "x <- m ;; k" := (bind m (fun x => k))
  (at level 100, m at next level, right associativity) : py_scope.
Notation "m ;; k" := (bind m (fun _ => k))
  (at level 100, right associativity) : py_scope.
Open Scope py_scope.

(** [try: body except C as e: handler e], where [catches e] says whether
    [e] is an instance of [C]. *)
Definition try_except {A} (body : M A) (catches : exception -> bool)
    (handler : exception -> M A) : M A :=
  fun s =>
    match body s with
    | (Ok a, s') => (Ok a, s')
    | (Raise e, s') => if catches e then handler e s' else (Raise e, s')
    end.

(** [try: body finally: final]: [final] runs on every exit of [body]; an
    exception of [final] replaces the outcome of [body]. *)
Definition try_finally {A} (body : M A) (final : M unit) : M A :=
  fun s =>
    match body s with
    | (r, s') =>
        match final s' with
        | (Ok _, s'') => (r, s'')
        | (Raise e, s'') => (Raise e, s'')
        end
    end.

(** [for x in l: body x]. *)
Fixpoint for_each {A} (l : list A) (body : A -> M unit) : M unit :=
  match l with
  | [] => ret tt
  | x :: l' => body x ;; for_each l' body
  end.

(** [print(line)]. *)
Definition print (line : string) : M unit :=
  fun s => (Ok tt, mkState (validator s) (sys_stdout s ++ [line]) (sockets s)).

(** A call into the operating system, from its answer. *)
Definition os_call {A} (answer : exception + A) : M A :=
  match answer with
  | inr a => ret a
  | inl e => raise e
  end.

(** [l[i]]. *)
Definition py_index (l : list string) (i : nat) : M string :=
  match nth_error l i with
  | Some x => ret x
  | None => raise (mkException IndexError "list index out of range")
  end.

(** ** The calls into the operating system *)

Section Program.

Variable env : environment.

(** [os.path.exists(path)], as the standard library writes it: [os.stat]
    with [OSError] and [ValueError] turned into [False]. *)
Definition os_path_exists (path : string) : M bool :=
  match os_stat env path with
  | None => ret true
  | Some e =>
      if isinstance e OSError || isinstance e ValueError then ret false
      else raise e
  end.

Definition run (argv : list string) : M CompletedProcess :=
  os_call (subprocess_run env argv).

(** [socket.socket(...)]: the new socket is the index of its entry. *)
Definition new_socket : M nat :=
  fun s =>
    match socket_socket env (length (sockets s)) with
    | None =>
        (Ok (length (sockets s)),
         mkState (validator s) (sys_stdout s)
                 (sockets s ++ [mkSocket false None]))
    | Some e => (Raise e, s)
    end.

Fixpoint update_socket (i : nat) (f : socket_object -> socket_object)
    (l : list socket_object) : list socket_object :=
  match l, i with
  | [], _ => []
  | x :: l', O => f x :: l'
  | x :: l', S i' => x :: update_socket i' f l'
  end.

(** [sock.settimeout(t)]. *)
Definition settimeout (sock : nat) (t : Z) : M unit :=
  fun s =>
    (Ok tt,
     mkState (validator s) (sys_stdout s)
       (update_socket sock (fun o => mkSocket (sock_closed o) (Some t))
          (sockets s))).

(** [sock.close()]. *)
Definition close (sock : nat) : M unit :=
  fun s =>
    (Ok tt,
     mkState (validator s) (sys_stdout s)
       (update_socket sock (fun o => mkSocket true (sock_timeout o))
          (sockets s))).

(** [sock.connect_ex((host, port))]: the error indicator of the connect,
    0 when it succeeds; a closed socket raises. *)
Definition connect_ex (sock : nat) (host : string) (port : Z) : M Z :=
  fun s =>
    match nth_error (sockets s) sock with
    | Some o =>
        if sock_closed o then
          (Raise (mkException OSError "[Errno 9] Bad file descriptor"), s)
        else
          os_call (socket_connect_ex env host port (sock_timeout o)) s
    | None => (Raise (mkException OSError "[Errno 9] Bad file descriptor"), s)
    end.

Definition gethostbyname (host : string) : M string :=
  os_call (socket_gethostbyname env host).

(** ** The validator *)

Definition set_validator (v : PipelineValidator) : M unit :=
  fun s => (Ok tt, mkState v (sys_stdout s) (sockets s)).

Definition get_validator : M PipelineValidator :=
  fun s => (Ok (validator s), s).

(** [PipelineValidator()]. *)
Definition init : M unit := set_validator (mkPipelineValidator [] []).

Definition log_error (message : string) : M unit :=
  self <- get_validator ;;
  set_validator (mkPipelineValidator (errors self ++ [message]) (warnings self)) ;;
  print ("❌ ERROR: " ++ message).

Definition log_warning (message : string) : M unit :=
  self <- get_validator ;;
  set_validator (mkPipelineValidator (errors self) (warnings self ++ [message])) ;;
  print ("⚠️  WARNING: " ++ message).

Definition log_success (message : string) : M unit :=
  print ("✅ " ++ message).

Definition nl : string := String PyStr.LF EmptyString.

Definition required_dirs : list string :=
  [ "/home/homar/spark-kafka-stream/data_lake";
    "/home/homar/spark-kafka-stream/checkpoints";
    "/home/homar/spark-kafka-stream/scripts" ].

Definition check_directories : M unit :=
  print (nl ++ "📁 Checking directories...") ;;
  for_each required_dirs (fun directory =>
    found <- os_path_exists directory ;;
    if found then log_success ("Directory exists: " ++ directory)
    else log_error ("Directory missing: " ++ directory)).

Definition required_containers : list string :=
  [ "spark-master"; "ci-vertica-db"; "dbeaver-client"; "pg-db" ].

Definition docker_ps : list string :=
  [ "docker"; "ps"; "--format"; "{{.Names}}" ].

Definition check_docker_containers : M unit :=
  print (nl ++ "🐳 Checking Docker containers...") ;;
  try_except
    (result <- run docker_ps ;;
     let running_containers := PyStr.split PyStr.LF (PyStr.strip (stdout result)) in
     for_each required_containers (fun container =>
       if PyStr.contains running_containers container
       then log_success ("Container running: " ++ container)
       else log_error ("Container not running: " ++ container)))
    (fun e => isinstance e Exception)
    (fun e => log_error ("Failed to check Docker containers: " ++ exc_str e)).

Definition docker_ping : list string :=
  [ "docker"; "exec"; "spark-master"; "ping"; "-c"; "1"; "ci-vertica-db" ].

Definition check_network_connectivity : M unit :=
  print (nl ++ "🌐 Checking network connectivity...") ;;
  try_except
    (result <- run docker_ping ;;
     if (returncode result =? 0)%Z
     then log_success "Spark can reach Vertica container"
     else log_error "Spark cannot reach Vertica container")
    (fun e => isinstance e Exception)
    (fun e => log_error ("Failed to test network connectivity: " ++ exc_str e)).

Definition ports_to_check : list (Z * string) :=
  [ (8888%Z, "Jupyter"); (8978%Z, "DBeaver"); (15433%Z, "Vertica");
    (5445%Z, "PostgreSQL"); (4040%Z, "Spark UI") ].

(** The body of the loop of [check_ports]. *)
Definition check_port (entry : Z * string) : M unit :=
  let '(port, service) := entry in
  sock <- new_socket ;;
  settimeout sock 3 ;;
  try_finally
    (try_except
       (result <- connect_ex sock "localhost" port ;;
        if (result =? 0)%Z
        then log_success (service ++ " accessible on port " ++ PyStr.of_int port)
        else log_warning (service ++ " not accessible on port " ++ PyStr.of_int port))
       (fun e => isinstance e Exception)
       (fun e => log_warning ("Failed to check " ++ service ++ " on port "
                              ++ PyStr.of_int port ++ ": " ++ exc_str e)))
    (close sock).

Definition check_ports : M unit :=
  print (nl ++ "🔌 Checking port accessibility...") ;;
  for_each ports_to_check check_port.

Definition vsql_select : list string :=
  [ "docker"; "exec"; "ci-vertica-db"; "/opt/vertica/bin/vsql";
    "-U"; "customer_insights"; "-d"; "customer_insights"; "-c"; "SELECT 1;" ].

Definition check_vertica_status : M unit :=
  print (nl ++ "🗄️  Checking Vertica database...") ;;
  try_except
    (result <- run vsql_select ;;
     if (returncode result =? 0)%Z
     then log_success "Vertica database is ready"
     else log_warning "Vertica database might still be initializing")
    (fun e => isinstance e Exception)
    (fun e => log_warning ("Could not check Vertica status: " ++ exc_str e)).

Definition kafka_server : string :=
  "strimzi-kafka-cluster-oci-preprod-kafka-bootstrap.strimzi-kafka-preprod:9092".

Definition check_kafka_connectivity : M unit :=
  print (nl ++ "📡 Checking Kafka connectivity...") ;;
  try_except
    (host <- py_index (PyStr.split ":"%char kafka_server) 0 ;;
     gethostbyname host ;;
     log_success "Kafka hostname can be resolved")
    (fun e => isinstance e gaierror)
    (fun _ => log_warning "Cannot resolve Kafka hostname - ensure VPN is connected").

Definition notebook_path : string :=
  "/home/homar/spark-kafka-stream/scripts/realtime_sms_pipeline.ipynb".

Definition check_notebook_files : M unit :=
  print (nl ++ "📋 Checking notebook files...") ;;
  found <- os_path_exists notebook_path ;;
  if found then log_success "Pipeline notebook found in scripts directory"
  else log_error "Pipeline notebook not found in scripts directory".

(** Python truth of a list: it is not empty. *)
Definition truthy {A} (l : list A) : bool :=
  match l with [] => false | _ :: _ => true end.

Definition when (b : bool) (m : M unit) : M unit :=
  if b then m else ret tt.

Definition generate_report : M bool :=
  self <- get_validator ;;
  print (nl ++ PyStr.mul "=" 60) ;;
  print "📊 VALIDATION REPORT" ;;
  print (PyStr.mul "=" 60) ;;
  when (negb (truthy (errors self)) && negb (truthy (warnings self)))
    (print "🎉 ALL CHECKS PASSED!" ;;
     print "🚀 Your pipeline is ready for testing!") ;;
  when (truthy (warnings self))
    (print (nl ++ "⚠️  WARNINGS (" ++ PyStr.of_len (length (warnings self)) ++ "):") ;;
     for_each (warnings self) (fun warning => print ("   • " ++ warning))) ;;
  when (truthy (errors self))
    (print (nl ++ "❌ ERRORS (" ++ PyStr.of_len (length (errors self)) ++ "):") ;;
     for_each (errors self) (fun error => print ("   • " ++ error)) ;;
     print (nl ++ "🔧 Please fix the errors before running the pipeline")) ;;
  print (nl ++ "📋 Next Steps:") ;;
  (if negb (truthy (errors self)) then
     print "1. Ensure VPN connection to Unifonic Kafka" ;;
     print "2. Open Jupyter: http://localhost:8888" ;;
     print "3. Run the realtime_sms_pipeline.ipynb notebook" ;;
     print "4. Monitor results in DBeaver: http://localhost:8978"
   else
     print "1. Fix the errors listed above" ;;
     print "2. Run this validation script again" ;;
     print "3. Ensure all Docker containers are running") ;;
  ret (length (errors self) =? 0)%nat.

(** [main], up to the argument it passes to [sys.exit]. *)
Definition main : M Z :=
  print "🔍 Real-Time SMS Pipeline Validation" ;;
  print "====================================" ;;
  print ("⏰ Timestamp: " ++ datetime_now env) ;;
  init ;;
  check_directories ;;
  check_docker_containers ;;
  check_network_connectivity ;;
  check_ports ;;
  check_vertica_status ;;
  check_kafka_connectivity ;;
  check_notebook_files ;;
  success <- generate_report ;;
  ret (if success then 0%Z else 1%Z).

End Program.

(** The state in which the interpreter starts the script. *)
Definition initial_state : state := mkState (mkPipelineValidator [] []) [] [].

(** How the process ends: [sys.exit(code)], or a traceback for an
    exception nothing caught. *)
Inductive outcome : Type :=
| Exited (code : Z)
| Traceback (e : exception).

Definition run_script (env : environment) : outcome * state :=
  match main env initial_state with
  | (Ok code, s) => (Exited code, s)
  | (Raise e, s) => (Traceback e, s)
  end.

(** The exit status of the process: the argument of [sys.exit]; after the
    traceback of an uncaught exception that is an instance of [Exception],
    1.  An uncaught [KeyboardInterrupt] or [SystemExit] ends the process
    in a way of its own, which is left out. *)
Definition exit_status (o : outcome) : option Z :=
  match o with
  | Exited code => Some code
  | Traceback e => if isinstance e Exception then Some 1%Z else None
  end.

(** * Vocabulary of the properties *)

(** What a program prints when run from [s]. *)
Definition printed {A} (m : M A) (s : state) : list string :=
  skipn (length (sys_stdout s)) (sys_stdout (snd (m s))).

(** The lines of [log_success], and their number in an output. *)
Definition is_success_line (line : string) : bool := String.prefix "✅ " line.

Definition successes (out : list string) : nat :=
  length (filter is_success_line out).

(** The lines the report prints for the entries of a log. *)
Definition bullet (entry : string) : string := "   • " ++ entry.

Definition is_bullet (line : string) : bool := String.prefix "   • " line.

(** The lines of the report, read off [generate_report]. *)
Definition report_lines (v : PipelineValidator) : list string :=
  ([(nl ++ PyStr.mul "=" 60)%string; "📊 VALIDATION REPORT"; PyStr.mul "=" 60]
   ++ (if negb (truthy (errors v)) && negb (truthy (warnings v))
       then ["🎉 ALL CHECKS PASSED!"; "🚀 Your pipeline is ready for testing!"]
       else [])
   ++ (if truthy (warnings v)
       then (nl ++ "⚠️  WARNINGS (" ++ PyStr.of_len (length (warnings v)) ++ "):")%string
            :: map bullet (warnings v)
       else [])
   ++ (if truthy (errors v)
       then (nl ++ "❌ ERRORS (" ++ PyStr.of_len (length (errors v)) ++ "):")%string
            :: (map bullet (errors v)
                ++ [(nl ++ "🔧 Please fix the errors before running the pipeline")%string])
       else [])
   ++ [(nl ++ "📋 Next Steps:")%string]
   ++ (if negb (truthy (errors v))
       then ["1. Ensure VPN connection to Unifonic Kafka";
             "2. Open Jupyter: http://localhost:8888";
             "3. Run the realtime_sms_pipeline.ipynb notebook";
             "4. Monitor results in DBeaver: http://localhost:8978"]
       else ["1. Fix the errors listed above";
             "2. Run this validation script again";
             "3. Ensure all Docker containers are running"]))%list.

Definition closed_socket (o : socket_object) : Prop := sock_closed o = true.

(** The connect to [localhost:port] under the 3 second timeout returns an
    error number: the connection was refused, or timed out. *)
Definition connect_fails (env : environment) (port : Z) : Prop :=
  exists r, socket_connect_ex env "localhost" port (Some 3%Z) = inr r
            /\ r <> 0%Z.

Definition not_running (container : string) : string :=
  "Container not running: " ++ container.

(** The line [check_docker_containers] prints for a required container. *)
Definition container_line (running : list string) (container : string) : string :=
  if PyStr.contains running container
  then "✅ Container running: " ++ container
  else "❌ ERROR: Container not running: " ++ container.

Definition is_failed_to_check (message : string) : bool :=
  String.prefix "Failed to check Docker containers" message.

(** Two environments give the same answers: the same filesystem answers,
    subprocess results, socket outcomes and DNS outcomes.  The clock is
    left out. *)
Definition same_answers (e1 e2 : environment) : Prop :=
  (forall path, os_stat e1 path = os_stat e2 path)
  /\ (forall argv, subprocess_run e1 argv = subprocess_run e2 argv)
  /\ (forall n, socket_socket e1 n = socket_socket e2 n)
  /\ (forall host port timeout,
        socket_connect_ex e1 host port timeout
        = socket_connect_ex e2 host port timeout)
  /\ (forall host, socket_gethostbyname e1 host = socket_gethostbyname e2 host).

(** Two states with the same validator and the same sockets; what was
    printed may differ. *)
Definition same_logs (s1 s2 : state) : Prop :=
  validator s1 = validator s2 /\ sockets s1 = sockets s2.

(** Two programs that, from such states, end the same way in such states. *)
Definition alike {A} (m1 m2 : M A) : Prop :=
  forall s1 s2,
    same_logs s1 s2 ->
    fst (m1 s1) = fst (m2 s2) /\ same_logs (snd (m1 s1)) (snd (m2 s2)).

(** ** Sample environments *)

Definition all_names : string :=
  "spark-master" ++ nl ++ "ci-vertica-db" ++ nl ++ "dbeaver-client" ++ nl
  ++ "pg-db" ++ nl.

(** Everything is in place: paths exist, the four containers run, the
    commands succeed, the ports accept, the Kafka name resolves. *)
Definition ready_env : environment :=
  mkEnvironment
    (fun _ => None)
    (fun _ => inr (mkCompletedProcess 0 all_names ""))
    (fun _ => None)
    (fun _ _ _ => inr 0%Z)
    (fun _ => inr "10.0.12.7")
    "2025-03-01 09:00:00.000000".

Definition with_subprocess_run (env : environment)
    (f : list string -> exception + CompletedProcess) : environment :=
  mkEnvironment (os_stat env) f (socket_socket env) (socket_connect_ex env)
    (socket_gethostbyname env) (datetime_now env).

Definition with_connect_ex (env : environment)
    (f : string -> Z -> option Z -> exception + Z) : environment :=
  mkEnvironment (os_stat env) (subprocess_run env) (socket_socket env) f
    (socket_gethostbyname env) (datetime_now env).

Definition with_gethostbyname (env : environment)
    (f : string -> exception + string) : environment :=
  mkEnvironment (os_stat env) (subprocess_run env) (socket_socket env)
    (socket_connect_ex env) f (datetime_now env).

Definition with_now (env : environment) (now : string) : environment :=
  mkEnvironment (os_stat env) (subprocess_run env) (socket_socket env)
    (socket_connect_ex env) (socket_gethostbyname env) now.

(** The lookup fails inside the resolver with a system error
    ([EAI_SYSTEM]), which Python raises as a plain [OSError]. *)
Definition dns_system_error : exception :=
  mkException OSError "[Errno 24] Too many open files".

Definition dns_failure_env : environment :=
  with_gethostbyname ready_env (fun _ => inl dns_system_error).

(** Only Jupyter listens: the other ports refuse (error number 111) or,
    for Vertica, time out (error number 11). *)
Definition jupyter_only_env : environment :=
  with_connect_ex ready_env (fun _ port _ =>
    if (port =? 8888)%Z then inr 0%Z
    else if (port =? 15433)%Z then inr 11%Z
    else inr 111%Z).

(** The VPN is down and only Jupyter listens: warnings, no error. *)
Definition warnings_only_env : environment :=
  with_gethostbyname jupyter_only_env (fun _ =>
    inl (mkException gaierror "[Errno -2] Name or service not known")).

Definition two_running_env : environment :=
  with_subprocess_run ready_env (fun _ =>
    inr (mkCompletedProcess 0 ("spark-master" ++ nl ++ "pg-db" ++ nl) "")).

(** The Docker daemon is down: [docker ps] exits with status 1 and writes
    to its standard error only. *)
Definition daemon_down_env : environment :=
  with_subprocess_run ready_env (fun _ =>
    inr (mkCompletedProcess 1 ""
           "Cannot connect to the Docker daemon at unix:///var/run/docker.sock.")).

Definition docker_missing : exception :=
  mkException FileNotFoundError
    "[Errno 2] No such file or directory: 'docker'".

Definition docker_missing_env : environment :=
  with_subprocess_run ready_env (fun _ => inl docker_missing).

(** ** Vocabulary of the further properties *)

Definition errors_of (s : state) : list string := errors (validator s).

Definition warnings_of (s : state) : list string := warnings (validator s).

(** [m] leaves the part [proj] of the state as it found it, however it
    ends. *)
Definition preserves {X A} (proj : state -> X) (m : M A) : Prop :=
  forall s, proj (snd (m s)) = proj s.

(** [m] appends at most [n] entries to the log [log] and takes none away,
    however it ends. *)
Definition appends {A} (log : state -> list string) (n : nat) (m : M A) : Prop :=
  forall s,
    exists added, log (snd (m s)) = (log s ++ added)%list /\ length added <= n.

(** [m] closes the sockets it creates and leaves the others alone. *)
Definition closes_its_sockets {A} (m : M A) : Prop :=
  forall s,
    exists created,
      sockets (snd (m s)) = (sockets s ++ created)%list
      /\ Forall closed_socket created.

(** What [os.path.exists] answers in an environment where [os.stat] raises
    nothing but [OSError] and [ValueError]. *)
Definition path_exists (env : environment) (path : string) : bool :=
  match os_stat env path with
  | None => true
  | Some _ => false
  end.

Definition missing_dir (directory : string) : string :=
  "Directory missing: " ++ directory.

(** The lines [docker ps] listed, as [check_docker_containers] reads them. *)
Definition listed (result : CompletedProcess) : list string :=
  PyStr.split PyStr.LF (PyStr.strip (stdout result)).

(** The host the Kafka check looks up. *)
Definition kafka_host : string :=
  "strimzi-kafka-cluster-oci-preprod-kafka-bootstrap.strimzi-kafka-preprod".

(** The only exceptions of the environment are those the routines take:
    [os.stat] raises [OSError] or [ValueError], the commands and the
    connects raise instances of [Exception], the sockets can be created
    and the lookup raises [gaierror]. *)
Definition handled_answers (env : environment) : Prop :=
  (forall path e,
     os_stat env path = Some e ->
     isinstance e OSError || isinstance e ValueError = true)
  /\ (forall argv e,
        subprocess_run env argv = inl e -> isinstance e Exception = true)
  /\ (forall n, socket_socket env n = None)
  /\ (forall host port timeout e,
        socket_connect_ex env host port timeout = inl e ->
        isinstance e Exception = true)
  /\ (forall host e,
        socket_gethostbyname env host = inl e -> isinstance e gaierror = true).

(** What the script takes for a pipeline that is ready: the three
    directories and the notebook exist, [docker ps] completes and lists the
    four containers, and the ping from Spark to Vertica returns 0. *)
Definition ready (env : environment) : Prop :=
  (forall directory, In directory required_dirs -> os_stat env directory = None)
  /\ (exists result,
        subprocess_run env docker_ps = inr result
        /\ forall container,
             In container required_containers -> In container (listed result))
  /\ (exists result,
        subprocess_run env docker_ping = inr result /\ returncode result = 0%Z)
  /\ os_stat env notebook_path = None.

(** One directory is missing and one cannot be read. *)
Definition one_dir_env : environment :=
  mkEnvironment
    (fun path =>
       if String.eqb path "/home/homar/spark-kafka-stream/checkpoints"
       then Some (mkException FileNotFoundError
                    "[Errno 2] No such file or directory")
       else None)
    (subprocess_run ready_env) (socket_socket ready_env)
    (socket_connect_ex ready_env) (socket_gethostbyname ready_env)
    (datetime_now ready_env).

(** The process has used up its file descriptors: no socket can be
    created. *)
Definition no_socket_error : exception :=
  mkException OSError "[Errno 24] Too many open files".

Definition no_socket_env : environment :=
  mkEnvironment (os_stat ready_env) (subprocess_run ready_env)
    (fun _ => Some no_socket_error)
    (socket_connect_ex ready_env) (socket_gethostbyname ready_env)
    (datetime_now ready_env).

(** The line [check_directories] prints for a directory. *)
Definition dir_line (env : environment) (directory : string) : string :=
  if path_exists env directory
  then "✅ Directory exists: " ++ directory
  else "❌ ERROR: Directory missing: " ++ directory.

(** The notebook is there but its directory cannot be searched. *)
Definition unreadable_notebook_env : environment :=
  mkEnvironment
    (fun path =>
       if String.eqb path notebook_path
       then Some (mkException PermissionError "[Errno 13] Permission denied")
       else None)
    (subprocess_run ready_env) (socket_socket ready_env)
    (socket_connect_ex ready_env) (socket_gethostbyname ready_env)
    (datetime_now ready_env).

(** Nothing is in place: no path exists, Docker is not installed, every
    port refuses and the Kafka name does not resolve. *)
Definition nothing_env : environment :=
  mkEnvironment
    (fun _ => Some (mkException FileNotFoundError
                      "[Errno 2] No such file or directory"))
    (fun _ => inr (mkCompletedProcess 1 "" "docker: command failed"))
    (fun _ => None)
    (fun _ _ _ => inr 111%Z)
    (fun _ => inl (mkException gaierror "[Errno -2] Name or service not known"))
    "2025-03-01 09:00:00.000000".

(** [m] raises nothing but exceptions that [allowed] accepts. *)
Definition raises_only {A} (allowed : exception -> bool) (m : M A) : Prop :=
  forall s,
    match fst (m s) with
    | Ok _ => True
    | Raise e => allowed e = true
    end.

(** [m] returns, whatever the state it starts from. *)
Definition returns {A} (m : M A) : Prop := raises_only (fun _ => false) m.

(** The characters of a container name: letters, digits, [_], [.] and
    [-]. *)
Definition name_char (c : ascii) : bool :=
  let n := nat_of_ascii c in
  (((48 <=? n) && (n <=? 57)) || ((65 <=? n) && (n <=? 90))
   || ((97 <=? n) && (n <=? 122))
   || (n =? 45) || (n =? 46) || (n =? 95))%nat.

Definition is_name (s : string) : bool :=
  match s with
  | EmptyString => false
  | String _ _ => forallb name_char (list_ascii_of_string s)
  end.

(** What [docker ps --format {{.Names}}] writes for the containers
    [names]: each name and a newline. *)
Fixpoint ps_output (names : list string) : string :=
  match names with
  | [] => EmptyString
  | name :: names' => name ++ nl ++ ps_output names'
  end.

(** The names with a newline between them. *)
Fixpoint joined (names : list string) : string :=
  match names with
  | [] => EmptyString
  | [name] => name
  | name :: names' => name ++ nl ++ joined names'
  end.

(** A pattern of [strip] that starts with no character of a name. *)
Definition starts_off_names (p : string) : bool :=
  match p with
  | EmptyString => false
  | String a _ => negb (name_char a)
  end.

(** * Properties *)

(** ** The monad *)

Lemma bind_print {B} (line : string) (k : unit -> M B) (s : state) :
  bind (print line) k s
  = k tt (mkState (validator s) (sys_stdout s ++ [line]) (sockets s)).
Proof. reflexivity. Qed.

Lemma bind_ret {A B} (a : A) (k : A -> M B) (s : state) :
  bind (ret a) k s = k a s.
Proof. reflexivity. Qed.

Lemma bind_assoc {A B C} (m : M A) (k : A -> M B) (h : B -> M C) (s : state) :
  bind (bind m k) h s = bind m (fun a => bind (k a) h) s.
Proof. unfold bind. destruct (m s) as [[a|e] s']; reflexivity. Qed.

Lemma for_each_print (f : string -> string) (l : list string) (s : state) :
  for_each l (fun x => print (f x)) s
  = (Ok tt, mkState (validator s) (sys_stdout s ++ map f l) (sockets s)).
Proof.
  revert s. induction l as [|x l IH]; intros s; simpl.
  - rewrite app_nil_r. destruct s; reflexivity.
  - rewrite bind_print, IH. simpl. rewrite <- app_assoc. reflexivity.
Qed.

Lemma bind_for_each_print {B} (f : string -> string) (l : list string)
    (k : unit -> M B) (s : state) :
  bind (for_each l (fun x => print (f x))) k s
  = k tt (mkState (validator s) (sys_stdout s ++ map f l) (sockets s)).
Proof. unfold bind. rewrite for_each_print. reflexivity. Qed.

(** One step of the symbolic run of a program that only prints. *)
Ltac print_step :=
  first [ rewrite bind_assoc
        | rewrite bind_print
        | rewrite bind_ret
        | rewrite bind_for_each_print ];
  cbn [validator errors warnings sys_stdout sockets].

Lemma printed_app {A} (m : M A) (s : state) (new : list string) :
  sys_stdout (snd (m s)) = (sys_stdout s ++ new)%list -> printed m s = new.
Proof.
  intros H. unfold printed. rewrite H, skipn_app, skipn_all, Nat.sub_diag.
  reflexivity.
Qed.

Lemma prefix_app (p x : string) : String.prefix p (p ++ x) = true.
Proof.
  induction p as [|a p IH]; simpl.
  - destruct x; reflexivity.
  - destruct (ascii_dec a a); [exact IH | congruence].
Qed.

Lemma is_bullet_bullet (x : string) : is_bullet (bullet x) = true.
Proof. apply prefix_app. Qed.

Lemma filter_bullets (l : list string) :
  filter is_bullet (map bullet l) = map bullet l.
Proof.
  induction l as [|x l IH]; simpl; [reflexivity|].
  rewrite is_bullet_bullet, IH. reflexivity.
Qed.

(** ** The report *)

Lemma generate_report_runs (s : state) :
  generate_report s
  = (Ok (length (errors (validator s)) =? 0)%nat,
     mkState (validator s) (sys_stdout s ++ report_lines (validator s))
             (sockets s)).
Proof.
  destruct s as [[es ws] out socks].
  unfold generate_report, report_lines, get_validator, bind at 1.
  cbn [validator errors warnings sys_stdout sockets].
  fold bullet.
  destruct es as [|e es], ws as [|w ws];
    cbn [truthy negb andb when];
    repeat print_step;
    unfold print, ret;
    cbn [validator errors warnings sys_stdout sockets];
    repeat (rewrite <- app_assoc; cbn [app]);
    reflexivity.
Qed.

Lemma printed_generate_report (s : state) :
  printed generate_report s = report_lines (validator s).
Proof. apply printed_app. rewrite generate_report_runs. reflexivity. Qed.

Lemma banner_not_bullet (l : list string) :
  ~ In "🎉 ALL CHECKS PASSED!" (map bullet l).
Proof.
  intros H. apply in_map_iff in H. destruct H as [x [H _]]. discriminate H.
Qed.

(** Refutes the membership of the banner in a part of the report. *)
Ltac no_banner H :=
  repeat (cbn in H;
          match type of H with
          | In _ (_ ++ _)%list => apply in_app_iff in H; destruct H as [H|H]
          | In _ (map bullet _) => exact (banner_not_bullet _ H)
          | _ = _ \/ _ => destruct H as [H|H]; [discriminate H|]
          | False => exact H
          end).

(** C3: [generate_report] returns, and what it returns is [True] exactly
    when the errors list is empty, whatever the warnings list holds. *)
Theorem generate_report_true_iff_no_errors
    (es ws out : list string) (socks : list socket_object) :
  exists b s',
    generate_report (mkState (mkPipelineValidator es ws) out socks) = (Ok b, s')
    /\ (b = true <-> es = []).
Proof.
  eexists. eexists. split; [apply generate_report_runs|].
  cbn [validator errors]. destruct es; simpl; split; intros H;
    try reflexivity; discriminate H.
Qed.

(** C9: [generate_report] leaves the validator as it found it: the errors
    list and the warnings list after the call are the lists before it. *)
Theorem generate_report_keeps_logs (s : state) :
  errors (validator (snd (generate_report s))) = errors (validator s)
  /\ warnings (validator (snd (generate_report s))) = warnings (validator s).
Proof. rewrite generate_report_runs. split; reflexivity. Qed.

(** C4: the banner is printed exactly when both lists are empty; the
    entries the report lists are the warnings, in order, followed by the
    errors, in order; and the report ends with the next-steps list, which
    is one of two lists chosen by whether the errors list is empty. *)
Theorem generate_report_prints (s : state) :
  let v := validator s in
  let out := printed generate_report s in
  (In "🎉 ALL CHECKS PASSED!" out <-> errors v = [] /\ warnings v = [])
  /\ filter is_bullet out = (map bullet (warnings v) ++ map bullet (errors v))%list
  /\ exists body,
       out = (body ++ (nl ++ "📋 Next Steps:")%string ::
              match errors v with
              | [] => ["1. Ensure VPN connection to Unifonic Kafka";
                       "2. Open Jupyter: http://localhost:8888";
                       "3. Run the realtime_sms_pipeline.ipynb notebook";
                       "4. Monitor results in DBeaver: http://localhost:8978"]
              | _ :: _ => ["1. Fix the errors listed above";
                           "2. Run this validation script again";
                           "3. Ensure all Docker containers are running"]
              end)%list.
Proof.
  intros v out. subst out. rewrite printed_generate_report. fold v.
  destruct v as [es ws]. unfold report_lines. cbn [errors warnings].
  split; [|split].
  - destruct es as [|e es], ws as [|w ws]; cbn [truthy negb andb];
      (split; [intros H | intros [H1 H2]; try discriminate]);
      try (split; reflexivity); try (simpl; tauto);
      exfalso; no_banner H.
  - destruct es as [|e es], ws as [|w ws]; cbn [truthy negb andb]; simpl;
      rewrite ?is_bullet_bullet, ?filter_app, ?filter_bullets; simpl;
      rewrite ?is_bullet_bullet, ?filter_app, ?filter_bullets; simpl;
      rewrite ?app_nil_r; reflexivity.
  - match goal with
    | |- exists body, (?a ++ ?b ++ ?c ++ ?d ++ _)%list = _ =>
        exists (a ++ b ++ c ++ d)%list
    end.
    rewrite <- !app_assoc. destruct es; reflexivity.
Qed.

(** ** The logging methods *)

Lemma log_error_runs (message : string) (s : state) :
  log_error message s
  = (Ok tt,
     mkState (mkPipelineValidator (errors (validator s) ++ [message])
                                  (warnings (validator s)))
             (sys_stdout s ++ [("❌ ERROR: " ++ message)%string]) (sockets s)).
Proof. reflexivity. Qed.

Lemma log_warning_runs (message : string) (s : state) :
  log_warning message s
  = (Ok tt,
     mkState (mkPipelineValidator (errors (validator s))
                                  (warnings (validator s) ++ [message]))
             (sys_stdout s ++ [("⚠️  WARNING: " ++ message)%string]) (sockets s)).
Proof. reflexivity. Qed.

Lemma log_success_runs (message : string) (s : state) :
  log_success message s
  = (Ok tt,
     mkState (validator s) (sys_stdout s ++ [("✅ " ++ message)%string])
             (sockets s)).
Proof. reflexivity. Qed.

(** ** Sockets *)

Lemma update_socket_last (f : socket_object -> socket_object)
    (l : list socket_object) (x : socket_object) :
  update_socket (length l) f (l ++ [x]) = (l ++ [f x])%list.
Proof. induction l as [|y l IH]; simpl; [|rewrite IH]; reflexivity. Qed.

Lemma nth_error_last (l : list socket_object) (x : socket_object) :
  nth_error (l ++ [x]) (length l) = Some x.
Proof. induction l as [|y l IH]; simpl; [reflexivity | exact IH]. Qed.

(** What one turn of the loop of [check_ports] does once its socket exists:
    the outcome of the connect decides the line and the log entry, and the
    socket ends closed in each case. *)
Lemma check_port_runs (env : environment) (port : Z) (service : string)
    (s : state) :
  socket_socket env (length (sockets s)) = None ->
  check_port env (port, service) s =
  let closed := (sockets s ++ [mkSocket true (Some 3%Z)])%list in
  match socket_connect_ex env "localhost" port (Some 3%Z) with
  | inr r =>
      if (r =? 0)%Z then
        (Ok tt,
         mkState (validator s)
           (sys_stdout s
            ++ [("✅ " ++ service ++ " accessible on port "
                 ++ PyStr.of_int port)%string])
           closed)
      else
        let message :=
          (service ++ " not accessible on port " ++ PyStr.of_int port)%string in
        (Ok tt,
         mkState (mkPipelineValidator (errors (validator s))
                                      (warnings (validator s) ++ [message]))
           (sys_stdout s ++ [("⚠️  WARNING: " ++ message)%string])
           closed)
  | inl e =>
      if isinstance e Exception then
        let message :=
          ("Failed to check " ++ service ++ " on port " ++ PyStr.of_int port
           ++ ": " ++ exc_str e)%string in
        (Ok tt,
         mkState (mkPipelineValidator (errors (validator s))
                                      (warnings (validator s) ++ [message]))
           (sys_stdout s ++ [("⚠️  WARNING: " ++ message)%string])
           closed)
      else (Raise e, mkState (validator s) (sys_stdout s) closed)
  end.
Proof.
  intros Hsock. destruct s as [v out socks].
  unfold check_port, new_socket, bind at 1.
  cbn [validator sys_stdout sockets] in *. rewrite Hsock.
  unfold settimeout, bind at 1. cbn [validator sys_stdout sockets].
  rewrite update_socket_last. cbn [sock_closed].
  unfold try_finally, try_except, connect_ex, bind at 1.
  cbn [validator sys_stdout sockets].
  rewrite nth_error_last. cbn [sock_closed sock_timeout].
  destruct (socket_connect_ex env "localhost" port (Some 3%Z)) as [e|r];
    cbn [os_call raise ret].
  - destruct (isinstance e Exception).
    + rewrite log_warning_runs. unfold close.
      cbn [validator sys_stdout sockets errors warnings].
      rewrite update_socket_last. reflexivity.
    + unfold close. cbn [validator sys_stdout sockets].
      rewrite update_socket_last. reflexivity.
  - destruct (r =? 0)%Z.
    + rewrite log_success_runs. unfold close.
      cbn [validator sys_stdout sockets].
      rewrite update_socket_last. reflexivity.
    + rewrite log_warning_runs. unfold close.
      cbn [validator sys_stdout sockets errors warnings].
      rewrite update_socket_last. reflexivity.
Qed.

(** When the socket cannot be created, the turn ends there. *)
Lemma check_port_no_socket (env : environment) (entry : Z * string)
    (s : state) (e : exception) :
  socket_socket env (length (sockets s)) = Some e ->
  check_port env entry s = (Raise e, s).
Proof.
  intros Hsock. destruct entry as [port service].
  unfold check_port, new_socket, bind. rewrite Hsock. reflexivity.
Qed.

Lemma check_port_sockets (env : environment) (entry : Z * string) (s : state) :
  match socket_socket env (length (sockets s)) with
  | None =>
      sockets (snd (check_port env entry s))
      = (sockets s ++ [mkSocket true (Some 3%Z)])%list
  | Some e => check_port env entry s = (Raise e, s)
  end.
Proof.
  destruct (socket_socket env (length (sockets s))) as [e|] eqn:Hsock.
  - apply check_port_no_socket. exact Hsock.
  - destruct entry as [port service]. rewrite (check_port_runs _ _ _ _ Hsock).
    cbv zeta.
    destruct (socket_connect_ex env "localhost" port (Some 3%Z)) as [e|r];
      [destruct (isinstance e Exception) | destruct (r =? 0)%Z]; reflexivity.
Qed.

Lemma for_each_check_port_sockets (env : environment)
    (l : list (Z * string)) (s : state) :
  exists created,
    sockets (snd (for_each l (check_port env) s)) = (sockets s ++ created)%list
    /\ Forall closed_socket created.
Proof.
  revert s. induction l as [|entry l IH]; intros s.
  - exists []. split; [simpl; rewrite app_nil_r; reflexivity | constructor].
  - cbn [for_each]. unfold bind.
    pose proof (check_port_sockets env entry s) as Hturn.
    destruct (socket_socket env (length (sockets s))) as [e|].
    + rewrite Hturn. exists [].
      split; [simpl; rewrite app_nil_r; reflexivity | constructor].
    + destruct (check_port env entry s) as [[[]|e] s1]; cbn [snd] in *.
      * destruct (IH s1) as [created [Hs Hc]].
        exists (mkSocket true (Some 3%Z) :: created). split.
        -- rewrite Hs, Hturn, <- app_assoc. reflexivity.
        -- constructor; [reflexivity | exact Hc].
      * exists [mkSocket true (Some 3%Z)]. split; [exact Hturn|].
        constructor; [reflexivity | constructor].
Qed.

(** C7: in each turn of the loop of [check_ports] the socket the turn
    creates is closed when the turn ends, whatever the connect does (it
    returns 0, it returns an error number, it raises); and when
    [check_ports] ends, by returning or by an exception, every socket it
    created is closed and the sockets created before it are untouched. *)
Theorem check_ports_closes_sockets (env : environment) (s : state) :
  (forall entry,
     match socket_socket env (length (sockets s)) with
     | None =>
         sockets (snd (check_port env entry s))
         = (sockets s ++ [mkSocket true (Some 3%Z)])%list
     | Some e => check_port env entry s = (Raise e, s)
     end)
  /\ exists created,
       sockets (snd (check_ports env s)) = (sockets s ++ created)%list
       /\ Forall closed_socket created.
Proof.
  split; [intros entry; apply check_port_sockets|].
  unfold check_ports. rewrite bind_print.
  apply (for_each_check_port_sockets env ports_to_check
           (mkState (validator s) _ (sockets s))).
Qed.

Lemma bind_Ok {A B} (m : M A) (k : A -> M B) (s s' : state) (a : A) :
  m s = (Ok a, s') -> bind m k s = k a s'.
Proof. intros H. unfold bind. rewrite H. reflexivity. Qed.

Lemma bind_Raise {A B} (m : M A) (k : A -> M B) (s s' : state) (e : exception) :
  m s = (Raise e, s') -> bind m k s = (Raise e, s').
Proof. intros H. unfold bind. rewrite H. reflexivity. Qed.

Lemma check_port_open (env : environment) (port : Z) (service : string)
    (s : state) :
  socket_socket env (length (sockets s)) = None ->
  socket_connect_ex env "localhost" port (Some 3%Z) = inr 0%Z ->
  check_port env (port, service) s
  = (Ok tt,
     mkState (validator s)
       (sys_stdout s
        ++ [("✅ " ++ service ++ " accessible on port " ++ PyStr.of_int port)%string])
       (sockets s ++ [mkSocket true (Some 3%Z)])).
Proof.
  intros Hsock Hconn. rewrite (check_port_runs _ _ _ _ Hsock), Hconn.
  reflexivity.
Qed.

Lemma check_port_closed (env : environment) (port : Z) (service : string)
    (s : state) :
  socket_socket env (length (sockets s)) = None ->
  connect_fails env port ->
  check_port env (port, service) s
  = (Ok tt,
     mkState
       (mkPipelineValidator (errors (validator s))
          (warnings (validator s)
           ++ [(service ++ " not accessible on port " ++ PyStr.of_int port)%string]))
       (sys_stdout s
        ++ [("⚠️  WARNING: " ++ service ++ " not accessible on port "
             ++ PyStr.of_int port)%string])
       (sockets s ++ [mkSocket true (Some 3%Z)])).
Proof.
  intros Hsock [r [Hconn Hr]]. rewrite (check_port_runs _ _ _ _ Hsock), Hconn.
  apply Z.eqb_neq in Hr. rewrite Hr. reflexivity.
Qed.

(** C5: with port 8888 open and ports 8978, 15433, 5445 and 4040 closed,
    [check_ports] returns having printed one success line, appended four
    warnings (one per closed port) and no error. *)
Theorem check_ports_one_open (env : environment) (s : state) :
  (forall n, socket_socket env n = None) ->
  socket_connect_ex env "localhost" 8888%Z (Some 3%Z) = inr 0%Z ->
  connect_fails env 8978%Z ->
  connect_fails env 15433%Z ->
  connect_fails env 5445%Z ->
  connect_fails env 4040%Z ->
  exists s',
    check_ports env s = (Ok tt, s')
    /\ successes (printed (check_ports env) s) = 1
    /\ warnings (validator s')
       = (warnings (validator s)
          ++ ["DBeaver not accessible on port 8978";
              "Vertica not accessible on port 15433";
              "PostgreSQL not accessible on port 5445";
              "Spark UI not accessible on port 4040"])%list
    /\ errors (validator s') = errors (validator s).
Proof.
  intros Hsock H8888 H8978 H15433 H5445 H4040.
  assert (Hrun : check_ports env s
    = (Ok tt,
       mkState
         (mkPipelineValidator (errors (validator s))
            (warnings (validator s)
             ++ ["DBeaver not accessible on port 8978";
                 "Vertica not accessible on port 15433";
                 "PostgreSQL not accessible on port 5445";
                 "Spark UI not accessible on port 4040"]))
         (sys_stdout s
          ++ [(nl ++ "🔌 Checking port accessibility...")%string;
              "✅ Jupyter accessible on port 8888";
              "⚠️  WARNING: DBeaver not accessible on port 8978";
              "⚠️  WARNING: Vertica not accessible on port 15433";
              "⚠️  WARNING: PostgreSQL not accessible on port 5445";
              "⚠️  WARNING: Spark UI not accessible on port 4040"])
         (sockets s ++ repeat (mkSocket true (Some 3%Z)) 5))).
  { unfold check_ports, ports_to_check. rewrite bind_print. cbn [for_each].
    rewrite (bind_Ok _ _ _ _ _ (check_port_open _ _ _ _ (Hsock _) H8888)).
    rewrite (bind_Ok _ _ _ _ _ (check_port_closed _ _ _ _ (Hsock _) H8978)).
    rewrite (bind_Ok _ _ _ _ _ (check_port_closed _ _ _ _ (Hsock _) H15433)).
    rewrite (bind_Ok _ _ _ _ _ (check_port_closed _ _ _ _ (Hsock _) H5445)).
    rewrite (bind_Ok _ _ _ _ _ (check_port_closed _ _ _ _ (Hsock _) H4040)).
    cbn [validator errors warnings sys_stdout sockets ret].
    repeat (rewrite <- app_assoc; cbn [app]). reflexivity. }
  eexists. split; [exact Hrun|]. split; [|split].
  - erewrite printed_app by (rewrite Hrun; reflexivity). reflexivity.
  - reflexivity.
  - reflexivity.
Qed.

(** ** The container check *)

Lemma for_each_container (running l : list string) (s : state) :
  for_each l (fun container =>
    if PyStr.contains running container
    then log_success ("Container running: " ++ container)
    else log_error ("Container not running: " ++ container)) s
  = (Ok tt,
     mkState
       (mkPipelineValidator
          (errors (validator s)
           ++ map not_running
                (filter (fun c => negb (PyStr.contains running c)) l))
          (warnings (validator s)))
       (sys_stdout s ++ map (container_line running) l)
       (sockets s)).
Proof.
  revert s. induction l as [|c l IH]; intros s.
  - simpl. rewrite !app_nil_r. destruct s as [[es ws] out socks]. reflexivity.
  - cbn [for_each filter map]. unfold container_line at 1.
    destruct (PyStr.contains running c); cbn [negb].
    + rewrite (bind_Ok _ _ _ _ _ (log_success_runs _ s)), IH.
      cbn [validator errors warnings sys_stdout sockets].
      rewrite <- app_assoc. reflexivity.
    + rewrite (bind_Ok _ _ _ _ _ (log_error_runs _ s)), IH.
      cbn [validator errors warnings sys_stdout sockets map].
      rewrite <- !app_assoc. reflexivity.
Qed.

(** What [check_docker_containers] does when the command completes. *)
Lemma check_docker_containers_completed (env : environment) (s : state)
    (result : CompletedProcess) :
  subprocess_run env docker_ps = inr result ->
  let running := PyStr.split PyStr.LF (PyStr.strip (stdout result)) in
  check_docker_containers env s
  = (Ok tt,
     mkState
       (mkPipelineValidator
          (errors (validator s)
           ++ map not_running
                (filter (fun c => negb (PyStr.contains running c))
                   required_containers))
          (warnings (validator s)))
       (sys_stdout s
        ++ (nl ++ "🐳 Checking Docker containers...")%string
           :: map (container_line running) required_containers)
       (sockets s)).
Proof.
  intros Hrun running. unfold check_docker_containers, try_except, run.
  rewrite bind_print, Hrun. cbn [os_call]. rewrite bind_ret.
  fold running. rewrite for_each_container.
  cbn [validator errors warnings sys_stdout sockets].
  rewrite <- app_assoc. reflexivity.
Qed.

(** What it does when starting the command raises. *)
Lemma check_docker_containers_raised (env : environment) (s : state)
    (e : exception) :
  subprocess_run env docker_ps = inl e ->
  check_docker_containers env s
  = if isinstance e Exception then
      let message := ("Failed to check Docker containers: " ++ exc_str e)%string in
      (Ok tt,
       mkState
         (mkPipelineValidator (errors (validator s) ++ [message])
                              (warnings (validator s)))
         (sys_stdout s
          ++ [(nl ++ "🐳 Checking Docker containers...")%string;
              ("❌ ERROR: " ++ message)%string])
         (sockets s))
    else
      (Raise e,
       mkState (validator s)
         (sys_stdout s ++ [(nl ++ "🐳 Checking Docker containers...")%string])
         (sockets s)).
Proof.
  intros Hrun. unfold check_docker_containers, try_except, run.
  rewrite bind_print, Hrun. cbn [os_call]. unfold bind, raise.
  destruct (isinstance e Exception); [|reflexivity].
  rewrite log_error_runs. cbn [validator errors warnings sys_stdout sockets].
  rewrite <- app_assoc. reflexivity.
Qed.

(** C6: when the command completes and the names it lists are
    [spark-master] and [pg-db], [check_docker_containers] prints two
    success lines and appends two errors, for [ci-vertica-db] and for
    [dbeaver-client]. *)
Theorem check_docker_containers_two_running (env : environment) (s : state)
    (result : CompletedProcess) :
  subprocess_run env docker_ps = inr result ->
  PyStr.split PyStr.LF (PyStr.strip (stdout result)) = ["spark-master"; "pg-db"] ->
  exists s',
    check_docker_containers env s = (Ok tt, s')
    /\ successes (printed (check_docker_containers env) s) = 2
    /\ errors (validator s')
       = (errors (validator s)
          ++ ["Container not running: ci-vertica-db";
              "Container not running: dbeaver-client"])%list
    /\ warnings (validator s') = warnings (validator s).
Proof.
  intros Hrun Hnames.
  pose proof (check_docker_containers_completed env s result Hrun) as H.
  cbv zeta in H. rewrite Hnames in H.
  eexists. split; [exact H|]. split; [|split].
  - erewrite printed_app by (rewrite H; reflexivity). reflexivity.
  - reflexivity.
  - reflexivity.
Qed.

Lemma not_running_is_not_failed (l : list string) :
  Forall (fun message => is_failed_to_check message = false)
         (map not_running l).
Proof.
  apply Forall_forall. intros m Hm. apply in_map_iff in Hm.
  destruct Hm as [c [Hc _]]. subst m. reflexivity.
Qed.

(** C10: when the command completes with empty output (whatever its exit
    status), [check_docker_containers] appends four errors, "Container not
    running" for each required container; whenever the command completes,
    none of the errors appended is "Failed to check Docker containers";
    and that error is the one appended when starting the command raises
    an [Exception]. *)
Theorem check_docker_containers_empty_output (env : environment) (s : state) :
  (forall result,
     subprocess_run env docker_ps = inr result ->
     stdout result = "" ->
     exists s',
       check_docker_containers env s = (Ok tt, s')
       /\ errors (validator s')
          = (errors (validator s)
             ++ ["Container not running: spark-master";
                 "Container not running: ci-vertica-db";
                 "Container not running: dbeaver-client";
                 "Container not running: pg-db"])%list)
  /\ (forall result,
        subprocess_run env docker_ps = inr result ->
        exists added,
          errors (validator (snd (check_docker_containers env s)))
          = (errors (validator s) ++ added)%list
          /\ Forall (fun message => is_failed_to_check message = false) added)
  /\ (forall e,
        subprocess_run env docker_ps = inl e ->
        isinstance e Exception = true ->
        errors (validator (snd (check_docker_containers env s)))
        = (errors (validator s)
           ++ [("Failed to check Docker containers: " ++ exc_str e)%string])%list).
Proof.
  split; [|split].
  - intros result Hrun Hout.
    pose proof (check_docker_containers_completed env s result Hrun) as H.
    cbv zeta in H. rewrite Hout in H.
    eexists. split; [exact H|]. reflexivity.
  - intros result Hrun.
    rewrite (check_docker_containers_completed env s result Hrun).
    eexists. split; [reflexivity|]. apply not_running_is_not_failed.
  - intros e Hrun Hcatch.
    rewrite (check_docker_containers_raised env s e Hrun), Hcatch.
    reflexivity.
Qed.

(** ** The exit code *)

Lemma bind_Ok_inv {A B} (m : M A) (k : A -> M B) (s s' : state) (b : B) :
  bind m k s = (Ok b, s') ->
  exists a s1, m s = (Ok a, s1) /\ k a s1 = (Ok b, s').
Proof.
  unfold bind. destruct (m s) as [[a|e] s1]; intros H.
  - exists a, s1. split; [reflexivity | exact H].
  - discriminate H.
Qed.

Lemma main_exit_code (env : environment) (s0 s : state) (code : Z) :
  main env s0 = (Ok code, s) ->
  (code = 0%Z <-> errors (validator s) = [])
  /\ (code = 1%Z <-> errors (validator s) <> []).
Proof.
  intros H. unfold main in H.
  do 11 (apply bind_Ok_inv in H; destruct H as [? [? [_ H]]]).
  unfold bind in H. rewrite generate_report_runs in H.
  unfold ret in H. injection H as Hcode Hs. subst s code.
  cbn [validator]. destruct (errors (validator _)); cbn [length Nat.eqb];
    split; split; intros H; try reflexivity; try discriminate H.
  - exfalso. apply H. reflexivity.
  - discriminate.
Qed.

(** For a run that reaches [sys.exit]: the exit code is 0 exactly when
    the errors list is empty and 1 exactly when it is not; the warnings
    list plays no part. *)
Theorem exit_code_reflects_errors (env : environment) (s : state) (code : Z) :
  run_script env = (Exited code, s) ->
  (code = 0%Z <-> errors (validator s) = [])
  /\ (code = 1%Z <-> errors (validator s) <> []).
Proof.
  unfold run_script. intros H.
  destruct (main env initial_state) as [[c|e] s1] eqn:Hmain;
    [|discriminate H].
  injection H as Hc Hs. subst c s1.
  exact (main_exit_code env initial_state s code Hmain).
Qed.

(** C2: not every run reaches [sys.exit].  In the environment where the
    DNS lookup of the Kafka host raises an [OSError] that is not a
    [gaierror], the exception leaves [main]: the process ends with exit
    status 1 although its errors list and its warnings list are empty,
    and the report is never printed. *)
Theorem exit_status_1_without_errors :
  fst (run_script dns_failure_env) = Traceback dns_system_error
  /\ exit_status (fst (run_script dns_failure_env)) = Some 1%Z
  /\ errors (validator (snd (run_script dns_failure_env))) = []
  /\ warnings (validator (snd (run_script dns_failure_env))) = []
  /\ ~ In "📊 VALIDATION REPORT" (sys_stdout (snd (run_script dns_failure_env))).
Proof.
  split; [vm_compute; reflexivity|].
  split; [vm_compute; reflexivity|].
  split; [vm_compute; reflexivity|].
  split; [vm_compute; reflexivity|].
  intros H. apply (In_nth_error _ _) in H. destruct H as [n H].
  vm_compute in H.
  do 30 (destruct n as [|n]; [discriminate H|]).
  destruct n; discriminate H.
Qed.

(** ** Two runs in the same environment *)

Lemma alike_ret {A} (a : A) : alike (ret a) (ret a).
Proof. intros s1 s2 H. split; [reflexivity | exact H]. Qed.

Lemma alike_raise {A} (e : exception) : alike (@raise A e) (raise e).
Proof. intros s1 s2 H. split; [reflexivity | exact H]. Qed.

Lemma alike_os_call {A} (answer : exception + A) :
  alike (os_call answer) (os_call answer).
Proof. destruct answer; [apply alike_raise | apply alike_ret]. Qed.

Lemma alike_bind {A B} (m1 m2 : M A) (k1 k2 : A -> M B) :
  alike m1 m2 -> (forall a, alike (k1 a) (k2 a)) ->
  alike (bind m1 k1) (bind m2 k2).
Proof.
  intros Hm Hk s1 s2 H. unfold bind. destruct (Hm s1 s2 H) as [Hr Hs].
  destruct (m1 s1) as [[a1|x1] t1], (m2 s2) as [[a2|x2] t2];
    cbn [fst snd] in *; try discriminate Hr.
  - injection Hr as Hr. subst a2. apply Hk. exact Hs.
  - injection Hr as Hr. subst x2. split; [reflexivity | exact Hs].
Qed.

Lemma alike_try_except {A} (b1 b2 : M A) (catches : exception -> bool)
    (h1 h2 : exception -> M A) :
  alike b1 b2 -> (forall e, alike (h1 e) (h2 e)) ->
  alike (try_except b1 catches h1) (try_except b2 catches h2).
Proof.
  intros Hb Hh s1 s2 H. unfold try_except. destruct (Hb s1 s2 H) as [Hr Hs].
  destruct (b1 s1) as [[a1|x1] t1], (b2 s2) as [[a2|x2] t2];
    cbn [fst snd] in *; try discriminate Hr.
  - split; [exact Hr | exact Hs].
  - injection Hr as Hr. subst x2. destruct (catches x1).
    + apply Hh. exact Hs.
    + split; [reflexivity | exact Hs].
Qed.

Lemma alike_try_finally {A} (b1 b2 : M A) (f1 f2 : M unit) :
  alike b1 b2 -> alike f1 f2 ->
  alike (try_finally b1 f1) (try_finally b2 f2).
Proof.
  intros Hb Hf s1 s2 H. unfold try_finally. destruct (Hb s1 s2 H) as [Hr Hs].
  destruct (b1 s1) as [r1 t1], (b2 s2) as [r2 t2]. cbn [fst snd] in *.
  destruct (Hf t1 t2 Hs) as [Hr' Hs'].
  destruct (f1 t1) as [[u1|x1] t1'], (f2 t2) as [[u2|x2] t2'];
    cbn [fst snd] in *; try discriminate Hr'.
  - split; assumption.
  - injection Hr' as Hr'. subst x2. split; [reflexivity | assumption].
Qed.

Lemma alike_for_each {A} (l : list A) (b1 b2 : A -> M unit) :
  (forall x, alike (b1 x) (b2 x)) -> alike (for_each l b1) (for_each l b2).
Proof.
  intros Hb. induction l as [|x l IH]; cbn [for_each].
  - apply alike_ret.
  - apply alike_bind; [apply Hb | intros _; exact IH].
Qed.

(** What is printed is not looked at, so the two lines may differ. *)
Lemma alike_print (line1 line2 : string) : alike (print line1) (print line2).
Proof. intros s1 s2 H. split; [reflexivity | exact H]. Qed.

Lemma alike_get_validator : alike get_validator get_validator.
Proof.
  intros s1 s2 H. split; [|exact H]. destruct H as [Hv _].
  unfold get_validator. cbn [fst]. rewrite Hv. reflexivity.
Qed.

Lemma alike_set_validator (v : PipelineValidator) :
  alike (set_validator v) (set_validator v).
Proof.
  intros s1 s2 [_ Hs]. split; [reflexivity|]. split; [reflexivity | exact Hs].
Qed.

Lemma alike_log_error (message : string) :
  alike (log_error message) (log_error message).
Proof.
  unfold log_error. apply alike_bind; [apply alike_get_validator|]. intros v.
  apply alike_bind; [apply alike_set_validator | intros _; apply alike_print].
Qed.

Lemma alike_log_warning (message : string) :
  alike (log_warning message) (log_warning message).
Proof.
  unfold log_warning. apply alike_bind; [apply alike_get_validator|]. intros v.
  apply alike_bind; [apply alike_set_validator | intros _; apply alike_print].
Qed.

Lemma alike_log_success (message : string) :
  alike (log_success message) (log_success message).
Proof. apply alike_print. Qed.

Lemma alike_settimeout (sock : nat) (t : Z) :
  alike (settimeout sock t) (settimeout sock t).
Proof.
  intros s1 s2 [Hv Hs]. split; [reflexivity|].
  unfold settimeout, same_logs. cbn [snd validator sockets].
  rewrite Hs. split; [exact Hv | reflexivity].
Qed.

Lemma alike_close (sock : nat) : alike (close sock) (close sock).
Proof.
  intros s1 s2 [Hv Hs]. split; [reflexivity|].
  unfold close, same_logs. cbn [snd validator sockets].
  rewrite Hs. split; [exact Hv | reflexivity].
Qed.

Section SameAnswers.

Variables e1 e2 : environment.
Hypothesis Hsame : same_answers e1 e2.

Lemma alike_os_path_exists (path : string) :
  alike (os_path_exists e1 path) (os_path_exists e2 path).
Proof.
  unfold os_path_exists. destruct Hsame as [Hstat _]. rewrite (Hstat path).
  destruct (os_stat e2 path) as [e|]; [|apply alike_ret].
  destruct (isinstance e OSError || isinstance e ValueError);
    [apply alike_ret | apply alike_raise].
Qed.

Lemma alike_run (argv : list string) : alike (run e1 argv) (run e2 argv).
Proof.
  unfold run. destruct Hsame as [_ [Hrun _]]. rewrite (Hrun argv).
  apply alike_os_call.
Qed.

Lemma alike_gethostbyname (host : string) :
  alike (gethostbyname e1 host) (gethostbyname e2 host).
Proof.
  unfold gethostbyname. destruct Hsame as [_ [_ [_ [_ Hdns]]]].
  rewrite (Hdns host). apply alike_os_call.
Qed.

Lemma alike_new_socket : alike (new_socket e1) (new_socket e2).
Proof.
  intros s1 s2 [Hv Hs]. unfold new_socket.
  destruct Hsame as [_ [_ [Hsock _]]]. rewrite Hsock, Hs.
  destruct (socket_socket e2 (length (sockets s2))) as [e|]; cbn [fst snd].
  - split; [reflexivity|]. split; assumption.
  - split; [reflexivity|]. split; cbn [validator sockets];
      [exact Hv | reflexivity].
Qed.

Lemma alike_connect_ex (sock : nat) (host : string) (port : Z) :
  alike (connect_ex e1 sock host port) (connect_ex e2 sock host port).
Proof.
  intros s1 s2 H. pose proof H as [Hv Hs]. unfold connect_ex. rewrite Hs.
  destruct (nth_error (sockets s2) sock) as [o|].
  - destruct (sock_closed o).
    + split; [reflexivity | exact H].
    + destruct Hsame as [_ [_ [_ [Hconn _]]]]. rewrite Hconn.
      apply alike_os_call. exact H.
  - split; [reflexivity | exact H].
Qed.

(** Composes the lemmas above along the text of a routine. *)
Ltac alike_step :=
  first
    [ apply alike_print | apply alike_ret | apply alike_raise
    | apply alike_log_error | apply alike_log_warning | apply alike_log_success
    | apply alike_os_path_exists | apply alike_run | apply alike_gethostbyname
    | apply alike_new_socket | apply alike_connect_ex
    | apply alike_settimeout | apply alike_close
    | apply alike_get_validator | apply alike_set_validator
    | apply alike_bind; [|intros ?]
    | apply alike_try_except; [|intros ?]
    | apply alike_try_finally
    | apply alike_for_each; intros ?
    | match goal with
      | |- alike (if ?b then _ else _) _ => destruct b
      | |- alike (match ?x with _ => _ end) _ => destruct x
      end ].

Lemma alike_check_directories :
  alike (check_directories e1) (check_directories e2).
Proof. unfold check_directories. repeat alike_step. Qed.

Lemma alike_check_docker_containers :
  alike (check_docker_containers e1) (check_docker_containers e2).
Proof. unfold check_docker_containers. repeat alike_step. Qed.

Lemma alike_check_network_connectivity :
  alike (check_network_connectivity e1) (check_network_connectivity e2).
Proof. unfold check_network_connectivity. repeat alike_step. Qed.

Lemma alike_check_ports : alike (check_ports e1) (check_ports e2).
Proof. unfold check_ports, check_port. repeat alike_step. Qed.

Lemma alike_check_vertica_status :
  alike (check_vertica_status e1) (check_vertica_status e2).
Proof. unfold check_vertica_status. repeat alike_step. Qed.

Lemma alike_check_kafka_connectivity :
  alike (check_kafka_connectivity e1) (check_kafka_connectivity e2).
Proof. unfold check_kafka_connectivity, py_index. repeat alike_step. Qed.

Lemma alike_check_notebook_files :
  alike (check_notebook_files e1) (check_notebook_files e2).
Proof. unfold check_notebook_files. repeat alike_step. Qed.

Lemma alike_generate_report : alike generate_report generate_report.
Proof.
  intros s1 s2 H. rewrite !generate_report_runs. cbn [fst snd].
  destruct H as [Hv Hs]. rewrite Hv. split; [reflexivity|].
  split; [reflexivity | exact Hs].
Qed.

Lemma alike_main : alike (main e1) (main e2).
Proof.
  unfold main, init.
  repeat first
    [ apply alike_check_directories | apply alike_check_docker_containers
    | apply alike_check_network_connectivity | apply alike_check_ports
    | apply alike_check_vertica_status | apply alike_check_kafka_connectivity
    | apply alike_check_notebook_files | apply alike_generate_report
    | alike_step ].
Qed.

End SameAnswers.

(** C8: two runs of the script against environments that give the same
    answers end the same way (the same exit code, or the same exception
    left uncaught) with the same errors list and the same warnings list. *)
Theorem run_script_deterministic (e1 e2 : environment) :
  same_answers e1 e2 ->
  fst (run_script e1) = fst (run_script e2)
  /\ errors (validator (snd (run_script e1)))
     = errors (validator (snd (run_script e2)))
  /\ warnings (validator (snd (run_script e1)))
     = warnings (validator (snd (run_script e2))).
Proof.
  intros Hsame.
  destruct (alike_main e1 e2 Hsame initial_state initial_state) as [Hr [Hv _]];
    [split; reflexivity|].
  unfold run_script.
  destruct (main e1 initial_state) as [[c1|x1] s1],
           (main e2 initial_state) as [[c2|x2] s2];
    cbn [fst snd] in *; try discriminate Hr;
    injection Hr as Hr; subst; rewrite Hv; repeat split; reflexivity.
Qed.

(** ** Exceptions of the operating-system calls *)

(** A [try] whose handler takes every [Exception] and returns lets out
    only what is not an [Exception]. *)
Lemma try_except_Exception {A} (body : M A) (handler : exception -> M A)
    (s : state) :
  (forall e t, exists a t', handler e t = (Ok a, t')) ->
  match fst (try_except body (fun e => isinstance e Exception) handler s) with
  | Ok _ => True
  | Raise e => isinstance e Exception = false
  end.
Proof.
  intros Hh. unfold try_except. destruct (body s) as [[a|e] s1]; [exact I|].
  destruct (isinstance e Exception) eqn:He; [|exact He].
  destruct (Hh e s1) as [a [t' H]]. rewrite H. exact I.
Qed.

Lemma check_docker_containers_catches (env : environment) (s : state) :
  match fst (check_docker_containers env s) with
  | Ok _ => True
  | Raise e => isinstance e Exception = false
  end.
Proof.
  unfold check_docker_containers. rewrite bind_print.
  apply try_except_Exception. intros e t. rewrite log_error_runs. eauto.
Qed.

Lemma check_network_connectivity_catches (env : environment) (s : state) :
  match fst (check_network_connectivity env s) with
  | Ok _ => True
  | Raise e => isinstance e Exception = false
  end.
Proof.
  unfold check_network_connectivity. rewrite bind_print.
  apply try_except_Exception. intros e t. rewrite log_error_runs. eauto.
Qed.

Lemma check_vertica_status_catches (env : environment) (s : state) :
  match fst (check_vertica_status env s) with
  | Ok _ => True
  | Raise e => isinstance e Exception = false
  end.
Proof.
  unfold check_vertica_status. rewrite bind_print.
  apply try_except_Exception. intros e t. rewrite log_warning_runs. eauto.
Qed.

Lemma kafka_server_split :
  PyStr.split ":"%char kafka_server
  = ["strimzi-kafka-cluster-oci-preprod-kafka-bootstrap.strimzi-kafka-preprod";
     "9092"].
Proof. vm_compute. reflexivity. Qed.

(** [check_kafka_connectivity] takes [gaierror] only: any other exception
    of the lookup leaves the routine, and no warning is logged. *)
Lemma check_kafka_connectivity_uncaught (env : environment) (s : state)
    (e : exception) :
  socket_gethostbyname env
    "strimzi-kafka-cluster-oci-preprod-kafka-bootstrap.strimzi-kafka-preprod"
  = inl e ->
  isinstance e gaierror = false ->
  check_kafka_connectivity env s
  = (Raise e,
     mkState (validator s)
       (sys_stdout s ++ [(nl ++ "📡 Checking Kafka connectivity...")%string])
       (sockets s)).
Proof.
  intros Hdns Hgai. unfold check_kafka_connectivity. rewrite bind_print.
  unfold try_except, gethostbyname. rewrite kafka_server_split.
  unfold py_index. cbn [nth_error]. rewrite bind_ret, Hdns. cbn [os_call]. unfold bind, raise.
  rewrite Hgai. reflexivity.
Qed.

Lemma check_kafka_connectivity_gaierror (env : environment) (s : state)
    (e : exception) :
  socket_gethostbyname env
    "strimzi-kafka-cluster-oci-preprod-kafka-bootstrap.strimzi-kafka-preprod"
  = inl e ->
  isinstance e gaierror = true ->
  check_kafka_connectivity env s
  = (Ok tt,
     mkState
       (mkPipelineValidator (errors (validator s))
          (warnings (validator s)
           ++ ["Cannot resolve Kafka hostname - ensure VPN is connected"]))
       (sys_stdout s
        ++ [(nl ++ "📡 Checking Kafka connectivity...")%string;
            "⚠️  WARNING: Cannot resolve Kafka hostname - ensure VPN is connected"])
       (sockets s)).
Proof.
  intros Hdns Hgai. unfold check_kafka_connectivity. rewrite bind_print.
  unfold try_except, gethostbyname. rewrite kafka_server_split.
  unfold py_index. cbn [nth_error]. rewrite bind_ret, Hdns. cbn [os_call]. unfold bind, raise.
  rewrite Hgai, log_warning_runs.
  cbn [validator errors warnings sys_stdout sockets].
  rewrite <- app_assoc. reflexivity.
Qed.

(** ** Sample runs *)

Example ready_env_exits_0 :
  fst (run_script ready_env) = Exited 0
  /\ validator (snd (run_script ready_env)) = mkPipelineValidator [] [].
Proof. split; vm_compute; reflexivity. Qed.

Example docker_missing_env_exits_1 :
  fst (run_script docker_missing_env) = Exited 1
  /\ errors (validator (snd (run_script docker_missing_env)))
     = ["Failed to check Docker containers: [Errno 2] No such file or directory: 'docker'";
        "Failed to test network connectivity: [Errno 2] No such file or directory: 'docker'"]
  /\ warnings (validator (snd (run_script docker_missing_env)))
     = ["Could not check Vertica status: [Errno 2] No such file or directory: 'docker'"].
Proof. repeat split; vm_compute; reflexivity. Qed.

(** C1: in an environment where the DNS lookup of the Kafka host raises an
    [OSError] that is not a [gaierror], [check_kafka_connectivity] logs
    nothing and lets the exception out, and the script ends in a traceback
    before the notebook check and the report. *)
Theorem check_kafka_connectivity_lets_OSError_out :
  (forall s,
     check_kafka_connectivity dns_failure_env s
     = (Raise dns_system_error,
        mkState (validator s)
          (sys_stdout s ++ [(nl ++ "📡 Checking Kafka connectivity...")%string])
          (sockets s)))
  /\ isinstance dns_system_error Exception = true
  /\ fst (run_script dns_failure_env) = Traceback dns_system_error
  /\ validator (snd (run_script dns_failure_env)) = mkPipelineValidator [] [].
Proof.
  split; [|repeat split; vm_compute; reflexivity].
  intros s. apply check_kafka_connectivity_uncaught; reflexivity.
Qed.

Lemma exit_code_reflects_errors_witness :
  (0%Z = 0%Z <-> errors (validator (snd (run_script warnings_only_env))) = [])
  /\ (0%Z = 1%Z <-> errors (validator (snd (run_script warnings_only_env))) <> []).
Proof.
  apply (exit_code_reflects_errors warnings_only_env).
  vm_compute. reflexivity.
Defined.

Lemma check_ports_one_open_witness :
  exists s',
    check_ports jupyter_only_env initial_state = (Ok tt, s')
    /\ successes (printed (check_ports jupyter_only_env) initial_state) = 1
    /\ warnings (validator s')
       = ["DBeaver not accessible on port 8978";
          "Vertica not accessible on port 15433";
          "PostgreSQL not accessible on port 5445";
          "Spark UI not accessible on port 4040"]
    /\ errors (validator s') = [].
Proof.
  apply (check_ports_one_open jupyter_only_env initial_state).
  - intros n. reflexivity.
  - reflexivity.
  - exists 111%Z. split; [reflexivity | lia].
  - exists 11%Z. split; [reflexivity | lia].
  - exists 111%Z. split; [reflexivity | lia].
  - exists 111%Z. split; [reflexivity | lia].
Defined.

Lemma check_docker_containers_two_running_witness :
  exists s',
    check_docker_containers two_running_env initial_state = (Ok tt, s')
    /\ successes (printed (check_docker_containers two_running_env) initial_state) = 2
    /\ errors (validator s')
       = ["Container not running: ci-vertica-db";
          "Container not running: dbeaver-client"]
    /\ warnings (validator s') = [].
Proof.
  apply (check_docker_containers_two_running two_running_env initial_state
           (mkCompletedProcess 0 ("spark-master" ++ nl ++ "pg-db" ++ nl) "")).
  - reflexivity.
  - vm_compute. reflexivity.
Defined.

Lemma check_docker_containers_empty_output_witness :
  (exists s',
     check_docker_containers daemon_down_env initial_state = (Ok tt, s')
     /\ errors (validator s')
        = ["Container not running: spark-master";
           "Container not running: ci-vertica-db";
           "Container not running: dbeaver-client";
           "Container not running: pg-db"])
  /\ (exists added,
        errors (validator (snd (check_docker_containers two_running_env initial_state)))
        = added
        /\ Forall (fun message => is_failed_to_check message = false) added)
  /\ errors (validator (snd (check_docker_containers docker_missing_env initial_state)))
     = ["Failed to check Docker containers: [Errno 2] No such file or directory: 'docker'"].
Proof.
  split; [|split].
  - apply (proj1 (check_docker_containers_empty_output daemon_down_env initial_state)
             (mkCompletedProcess 1 ""
                "Cannot connect to the Docker daemon at unix:///var/run/docker.sock."));
      reflexivity.
  - apply (proj1 (proj2 (check_docker_containers_empty_output two_running_env
                           initial_state))
             (mkCompletedProcess 0 ("spark-master" ++ nl ++ "pg-db" ++ nl) "")).
    reflexivity.
  - apply (proj2 (proj2 (check_docker_containers_empty_output docker_missing_env
                           initial_state))
             docker_missing); reflexivity.
Defined.

Lemma run_script_deterministic_witness :
  fst (run_script warnings_only_env)
  = fst (run_script (with_now warnings_only_env "2025-03-01 09:05:00.000000"))
  /\ errors (validator (snd (run_script warnings_only_env)))
     = errors (validator (snd (run_script
         (with_now warnings_only_env "2025-03-01 09:05:00.000000"))))
  /\ warnings (validator (snd (run_script warnings_only_env)))
     = warnings (validator (snd (run_script
         (with_now warnings_only_env "2025-03-01 09:05:00.000000")))).
Proof.
  apply (run_script_deterministic warnings_only_env
           (with_now warnings_only_env "2025-03-01 09:05:00.000000")).
  repeat split; intros; reflexivity.
Defined.

(** * Further properties *)

(** ** What a routine leaves alone *)

Section Preserves.

Variable X : Type.
Variable proj : state -> X.

(** [proj] does not look at what was printed. *)
Hypothesis proj_stdout :
  forall v out out' socks,
    proj (mkState v out socks) = proj (mkState v out' socks).

Lemma preserves_ret {A} (a : A) : preserves proj (ret a).
Proof. intros s. reflexivity. Qed.

Lemma preserves_raise {A} (e : exception) : preserves proj (@raise A e).
Proof. intros s. reflexivity. Qed.

Lemma preserves_os_call {A} (answer : exception + A) :
  preserves proj (os_call answer).
Proof. destruct answer; [apply preserves_raise | apply preserves_ret]. Qed.

Lemma preserves_print (line : string) : preserves proj (print line).
Proof. intros [v out socks]. apply proj_stdout. Qed.

Lemma preserves_bind {A B} (m : M A) (k : A -> M B) :
  preserves proj m -> (forall a, preserves proj (k a)) ->
  preserves proj (bind m k).
Proof.
  intros Hm Hk s. unfold bind. specialize (Hm s).
  destruct (m s) as [[a|e] s1]; cbn [snd] in *.
  - rewrite (Hk a s1). exact Hm.
  - exact Hm.
Qed.

Lemma preserves_try_except {A} (body : M A) (catches : exception -> bool)
    (handler : exception -> M A) :
  preserves proj body -> (forall e, preserves proj (handler e)) ->
  preserves proj (try_except body catches handler).
Proof.
  intros Hb Hh s. unfold try_except. specialize (Hb s).
  destruct (body s) as [[a|e] s1]; cbn [snd] in *; [exact Hb|].
  destruct (catches e); [|exact Hb]. rewrite (Hh e s1). exact Hb.
Qed.

Lemma preserves_try_finally {A} (body : M A) (final : M unit) :
  preserves proj body -> preserves proj final ->
  preserves proj (try_finally body final).
Proof.
  intros Hb Hf s. unfold try_finally. specialize (Hb s).
  destruct (body s) as [r s1]. specialize (Hf s1).
  destruct (final s1) as [[u|e] s2]; cbn [snd] in *; congruence.
Qed.

Lemma preserves_for_each {A} (l : list A) (body : A -> M unit) :
  (forall x, preserves proj (body x)) -> preserves proj (for_each l body).
Proof.
  intros Hb. induction l as [|x l IH]; cbn [for_each].
  - apply preserves_ret.
  - apply preserves_bind; [apply Hb | intros _; exact IH].
Qed.

Lemma preserves_os_path_exists (env : environment) (path : string) :
  preserves proj (os_path_exists env path).
Proof.
  unfold os_path_exists. destruct (os_stat env path) as [e|];
    [|apply preserves_ret].
  destruct (isinstance e OSError || isinstance e ValueError);
    [apply preserves_ret | apply preserves_raise].
Qed.

Lemma preserves_py_index (l : list string) (i : nat) :
  preserves proj (py_index l i).
Proof.
  unfold py_index. destruct (nth_error l i);
    [apply preserves_ret | apply preserves_raise].
Qed.

End Preserves.

Lemma errors_of_stdout (v : PipelineValidator) (out out' : list string)
    (socks : list socket_object) :
  errors_of (mkState v out socks) = errors_of (mkState v out' socks).
Proof. reflexivity. Qed.

Lemma warnings_of_stdout (v : PipelineValidator) (out out' : list string)
    (socks : list socket_object) :
  warnings_of (mkState v out socks) = warnings_of (mkState v out' socks).
Proof. reflexivity. Qed.

Lemma sockets_stdout (v : PipelineValidator) (out out' : list string)
    (socks : list socket_object) :
  sockets (mkState v out socks) = sockets (mkState v out' socks).
Proof. reflexivity. Qed.

(** A program that leaves the validator alone leaves both logs alone. *)
Lemma preserves_validator_errors {A} (m : M A) :
  preserves validator m -> preserves errors_of m.
Proof. intros H s. unfold errors_of. rewrite (H s). reflexivity. Qed.

Lemma preserves_validator_warnings {A} (m : M A) :
  preserves validator m -> preserves warnings_of m.
Proof. intros H s. unfold warnings_of. rewrite (H s). reflexivity. Qed.

Lemma new_socket_validator (env : environment) :
  preserves validator (new_socket env).
Proof.
  intros s. unfold new_socket.
  destruct (socket_socket env (length (sockets s))); reflexivity.
Qed.

Lemma settimeout_validator (sock : nat) (t : Z) :
  preserves validator (settimeout sock t).
Proof. intros s. reflexivity. Qed.

Lemma close_validator (sock : nat) : preserves validator (close sock).
Proof. intros s. reflexivity. Qed.

Lemma connect_ex_validator (env : environment) (sock : nat) (host : string)
    (port : Z) :
  preserves validator (connect_ex env sock host port).
Proof.
  intros s. unfold connect_ex. destruct (nth_error (sockets s) sock) as [o|];
    [|reflexivity].
  destruct (sock_closed o); [reflexivity|].
  destruct (socket_connect_ex env host port (sock_timeout o)); reflexivity.
Qed.

Lemma log_warning_errors (message : string) :
  preserves errors_of (log_warning message).
Proof. intros s. reflexivity. Qed.

Lemma log_success_errors (message : string) :
  preserves errors_of (log_success message).
Proof. intros s. reflexivity. Qed.

Lemma log_error_warnings (message : string) :
  preserves warnings_of (log_error message).
Proof. intros s. reflexivity. Qed.

Lemma log_success_warnings (message : string) :
  preserves warnings_of (log_success message).
Proof. intros s. reflexivity. Qed.

Lemma log_error_sockets (message : string) :
  preserves sockets (log_error message).
Proof. intros s. reflexivity. Qed.

Lemma log_warning_sockets (message : string) :
  preserves sockets (log_warning message).
Proof. intros s. reflexivity. Qed.

Lemma log_success_sockets (message : string) :
  preserves sockets (log_success message).
Proof. intros s. reflexivity. Qed.

(** Follows the text of a routine with the lemmas above. *)
Ltac preserves_step :=
  first
    [ apply preserves_print; (apply errors_of_stdout || apply warnings_of_stdout
                              || apply sockets_stdout)
    | apply preserves_ret | apply preserves_raise | apply preserves_os_call
    | apply preserves_os_path_exists | apply preserves_py_index
    | apply log_warning_errors | apply log_success_errors
    | apply log_error_warnings | apply log_success_warnings
    | apply log_error_sockets | apply log_warning_sockets
    | apply log_success_sockets
    | apply preserves_validator_errors;
      first [ apply new_socket_validator | apply settimeout_validator
            | apply close_validator | apply connect_ex_validator ]
    | apply preserves_validator_warnings;
      first [ apply new_socket_validator | apply settimeout_validator
            | apply close_validator | apply connect_ex_validator ]
    | apply preserves_bind; [|intros ?]
    | apply preserves_try_except; [|intros ?]
    | apply preserves_try_finally
    | apply preserves_for_each; intros ?
    | match goal with
      | |- preserves _ (if ?b then _ else _) => destruct b
      | |- preserves _ (match ?x with _ => _ end) => destruct x
      end ].

Ltac preserves_auto :=
  unfold check_directories, check_docker_containers,
    check_network_connectivity, check_ports, check_port,
    check_vertica_status, check_kafka_connectivity, check_notebook_files,
    run, gethostbyname;
  repeat preserves_step.

(** X1: the severity of each routine: the checks of the directories, of the
    containers, of the network and of the notebook never touch the
    warnings list; the checks of the ports, of Vertica and of Kafka never
    touch the errors list.  This holds however the routine ends. *)
Theorem severity_policy (env : environment) :
  preserves warnings_of (check_directories env)
  /\ preserves warnings_of (check_docker_containers env)
  /\ preserves warnings_of (check_network_connectivity env)
  /\ preserves warnings_of (check_notebook_files env)
  /\ preserves errors_of (check_ports env)
  /\ preserves errors_of (check_vertica_status env)
  /\ preserves errors_of (check_kafka_connectivity env).
Proof. repeat split; preserves_auto. Qed.

(** ** Sockets over the whole run *)

Lemma set_validator_sockets (v : PipelineValidator) :
  preserves sockets (set_validator v).
Proof. intros s. reflexivity. Qed.

Lemma generate_report_sockets : preserves sockets generate_report.
Proof. intros s. rewrite generate_report_runs. reflexivity. Qed.

Lemma preserves_closes {A} (m : M A) :
  preserves sockets m -> closes_its_sockets m.
Proof.
  intros H s. exists []. rewrite (H s), app_nil_r.
  split; [reflexivity | constructor].
Qed.

Lemma closes_bind {A B} (m : M A) (k : A -> M B) :
  closes_its_sockets m -> (forall a, closes_its_sockets (k a)) ->
  closes_its_sockets (bind m k).
Proof.
  intros Hm Hk s. unfold bind. destruct (Hm s) as [c1 [H1 F1]].
  destruct (m s) as [[a|e] s1]; cbn [snd] in *.
  - destruct (Hk a s1) as [c2 [H2 F2]]. exists (c1 ++ c2)%list. split.
    + rewrite H2, H1, app_assoc. reflexivity.
    + apply Forall_app. split; assumption.
  - exists c1. split; assumption.
Qed.

Lemma check_ports_closes (env : environment) :
  closes_its_sockets (check_ports env).
Proof.
  intros s. unfold check_ports. rewrite bind_print.
  apply (for_each_check_port_sockets env ports_to_check
           (mkState (validator s) _ (sockets s))).
Qed.

Lemma main_closes (env : environment) : closes_its_sockets (main env).
Proof.
  unfold main, init.
  repeat first
    [ apply check_ports_closes
    | apply preserves_closes; apply generate_report_sockets
    | apply preserves_closes; apply set_validator_sockets
    | apply closes_bind; [|intros ?]
    | apply preserves_closes; solve [preserves_auto] ].
Qed.

Lemma snd_run_script (env : environment) :
  snd (run_script env) = snd (main env initial_state).
Proof.
  unfold run_script. destruct (main env initial_state) as [[c|e] s];
    reflexivity.
Qed.

(** X2: when the process ends, by [sys.exit] or by a traceback, every
    socket it created is closed. *)
Theorem run_script_closes_sockets (env : environment) :
  Forall closed_socket (sockets (snd (run_script env))).
Proof.
  rewrite snd_run_script.
  destruct (main_closes env initial_state) as [created [H F]].
  rewrite H. exact F.
Qed.

(** ** How much a routine can log *)

Lemma appends_preserves {A} (log : state -> list string) (m : M A) :
  preserves log m -> appends log 0 m.
Proof.
  intros H s. exists []. rewrite (H s), app_nil_r.
  split; [reflexivity | apply Nat.le_refl].
Qed.

Lemma appends_weaken {A} (log : state -> list string) (n n' : nat) (m : M A) :
  n <= n' -> appends log n m -> appends log n' m.
Proof.
  intros Hn H s. destruct (H s) as [added [Ha Hl]]. exists added.
  split; [exact Ha | lia].
Qed.

Lemma appends_bind {A B} (log : state -> list string) (n k : nat)
    (m : M A) (f : A -> M B) :
  appends log n m -> (forall a, appends log k (f a)) ->
  appends log (n + k) (bind m f).
Proof.
  intros Hm Hf s. unfold bind. destruct (Hm s) as [a1 [H1 L1]].
  destruct (m s) as [[a|e] s1]; cbn [snd] in *.
  - destruct (Hf a s1) as [a2 [H2 L2]]. exists (a1 ++ a2)%list. split.
    + rewrite H2, H1, app_assoc. reflexivity.
    + rewrite length_app. lia.
  - exists a1. split; [exact H1 | lia].
Qed.

Lemma appends_for_each {A} (log : state -> list string) (l : list A)
    (body : A -> M unit) :
  (forall x, appends log 1 (body x)) ->
  appends log (length l) (for_each l body).
Proof.
  intros Hb. induction l as [|x l IH]; cbn [for_each length].
  - apply appends_preserves. intros s. reflexivity.
  - apply (appends_bind log 1 (length l)); [apply Hb | intros _; exact IH].
Qed.

(** Closes a goal of [appends] once the end state is in the open. *)
Ltac appends_done :=
  cbn [snd errors_of warnings_of validator errors warnings];
  first [ exists []; split; [rewrite app_nil_r; reflexivity | simpl; lia]
        | eexists; split; [reflexivity | simpl; lia] ].

Lemma log_error_appends (message : string) :
  appends errors_of 1 (log_error message).
Proof. intros s. rewrite log_error_runs. appends_done. Qed.

Lemma log_warning_appends (message : string) :
  appends warnings_of 1 (log_warning message).
Proof. intros s. rewrite log_warning_runs. appends_done. Qed.

Lemma check_directories_budget (env : environment) :
  appends errors_of 3 (check_directories env).
Proof.
  unfold check_directories.
  apply (appends_bind errors_of 0 3);
    [apply appends_preserves; preserves_auto | intros _].
  apply (appends_for_each errors_of required_dirs). intros directory.
  apply (appends_bind errors_of 0 1);
    [apply appends_preserves; preserves_auto | intros found].
  destruct found;
    [ apply (appends_weaken errors_of 0); [lia|];
      apply appends_preserves; preserves_auto
    | apply log_error_appends ].
Qed.

Lemma check_docker_containers_budget (env : environment) :
  appends errors_of 4 (check_docker_containers env).
Proof.
  intros s. destruct (subprocess_run env docker_ps) as [e|result] eqn:Hrun.
  - rewrite (check_docker_containers_raised env s e Hrun).
    destruct (isinstance e Exception); appends_done.
  - rewrite (check_docker_containers_completed env s result Hrun).
    cbn [snd errors_of validator errors]. eexists. split; [reflexivity|].
    rewrite length_map.
    apply (filter_length_le _ required_containers).
Qed.

Lemma check_network_connectivity_budget (env : environment) :
  appends errors_of 1 (check_network_connectivity env).
Proof.
  intros s. unfold check_network_connectivity. rewrite bind_print.
  unfold try_except, run.
  destruct (subprocess_run env docker_ping) as [e|result]; cbn [os_call].
  - unfold bind, raise. destruct (isinstance e Exception);
      [rewrite log_error_runs|]; appends_done.
  - rewrite bind_ret. destruct (returncode result =? 0)%Z;
      [rewrite log_success_runs | rewrite log_error_runs]; appends_done.
Qed.

Lemma check_port_budget (env : environment) (entry : Z * string) :
  appends warnings_of 1 (check_port env entry).
Proof.
  intros s. destruct entry as [port service].
  destruct (socket_socket env (length (sockets s))) as [e|] eqn:Hsock.
  - rewrite (check_port_no_socket env _ s e Hsock). appends_done.
  - rewrite (check_port_runs env port service s Hsock). cbv zeta.
    destruct (socket_connect_ex env "localhost" port (Some 3%Z)) as [e|r];
      [destruct (isinstance e Exception) | destruct (r =? 0)%Z];
      appends_done.
Qed.

Lemma check_ports_budget (env : environment) :
  appends warnings_of 5 (check_ports env).
Proof.
  unfold check_ports.
  apply (appends_bind warnings_of 0 5);
    [apply appends_preserves; preserves_auto | intros _].
  apply (appends_for_each warnings_of ports_to_check).
  apply check_port_budget.
Qed.

Lemma check_vertica_status_budget (env : environment) :
  appends warnings_of 1 (check_vertica_status env).
Proof.
  intros s. unfold check_vertica_status. rewrite bind_print.
  unfold try_except, run.
  destruct (subprocess_run env vsql_select) as [e|result]; cbn [os_call].
  - unfold bind, raise. destruct (isinstance e Exception);
      [rewrite log_warning_runs|]; appends_done.
  - rewrite bind_ret. destruct (returncode result =? 0)%Z;
      [rewrite log_success_runs | rewrite log_warning_runs]; appends_done.
Qed.

Lemma check_kafka_connectivity_budget (env : environment) :
  appends warnings_of 1 (check_kafka_connectivity env).
Proof.
  intros s. unfold check_kafka_connectivity. rewrite bind_print.
  unfold try_except, gethostbyname. rewrite kafka_server_split.
  unfold py_index. cbn [nth_error]. rewrite bind_ret.
  destruct (socket_gethostbyname env _) as [e|a]; cbn [os_call].
  - unfold bind, raise. destruct (isinstance e gaierror);
      [rewrite log_warning_runs|]; appends_done.
  - rewrite bind_ret, log_success_runs. appends_done.
Qed.

Lemma check_notebook_files_budget (env : environment) :
  appends errors_of 1 (check_notebook_files env).
Proof.
  unfold check_notebook_files.
  apply (appends_bind errors_of 0 1);
    [apply appends_preserves; preserves_auto | intros _].
  apply (appends_bind errors_of 0 1);
    [apply appends_preserves; preserves_auto | intros found].
  destruct found;
    [ apply (appends_weaken errors_of 0); [lia|];
      apply appends_preserves; preserves_auto
    | apply log_error_appends ].
Qed.

(** X3: however it ends, a routine only appends to its log, and at most
    one entry for each thing it checks: three directories, four
    containers, one ping, five ports, one database, one host name, one
    notebook. *)
Theorem log_budgets (env : environment) :
  appends errors_of 3 (check_directories env)
  /\ appends errors_of 4 (check_docker_containers env)
  /\ appends errors_of 1 (check_network_connectivity env)
  /\ appends warnings_of 5 (check_ports env)
  /\ appends warnings_of 1 (check_vertica_status env)
  /\ appends warnings_of 1 (check_kafka_connectivity env)
  /\ appends errors_of 1 (check_notebook_files env).
Proof.
  repeat split;
    [ apply check_directories_budget | apply check_docker_containers_budget
    | apply check_network_connectivity_budget | apply check_ports_budget
    | apply check_vertica_status_budget | apply check_kafka_connectivity_budget
    | apply check_notebook_files_budget ].
Qed.

Lemma generate_report_validator : preserves validator generate_report.
Proof. intros s. rewrite generate_report_runs. reflexivity. Qed.

(** The checks and the report, as [main] runs them on its new validator. *)
Lemma main_budget (env : environment) :
  appends errors_of 9
    (check_directories env ;; check_docker_containers env ;;
     check_network_connectivity env ;; check_ports env ;;
     check_vertica_status env ;; check_kafka_connectivity env ;;
     check_notebook_files env ;;
     success <- generate_report ;; ret (if success then 0%Z else 1%Z))
  /\ appends warnings_of 7
       (check_directories env ;; check_docker_containers env ;;
        check_network_connectivity env ;; check_ports env ;;
        check_vertica_status env ;; check_kafka_connectivity env ;;
        check_notebook_files env ;;
        success <- generate_report ;; ret (if success then 0%Z else 1%Z)).
Proof.
  split.
  - apply (appends_bind errors_of 3 6); [apply check_directories_budget|].
    intros _.
    apply (appends_bind errors_of 4 2); [apply check_docker_containers_budget|].
    intros _.
    apply (appends_bind errors_of 1 1);
      [apply check_network_connectivity_budget|].
    intros _.
    apply (appends_bind errors_of 0 1);
      [apply appends_preserves; preserves_auto|].
    intros _.
    apply (appends_bind errors_of 0 1);
      [apply appends_preserves; preserves_auto|].
    intros _.
    apply (appends_bind errors_of 0 1);
      [apply appends_preserves; preserves_auto|].
    intros _.
    apply (appends_bind errors_of 1 0); [apply check_notebook_files_budget|].
    intros _.
    apply (appends_bind errors_of 0 0).
    + apply appends_preserves, preserves_validator_errors,
        generate_report_validator.
    + intros success. apply appends_preserves. intros s. reflexivity.
  - apply (appends_bind warnings_of 0 7);
      [apply appends_preserves; preserves_auto|].
    intros _.
    apply (appends_bind warnings_of 0 7);
      [apply appends_preserves; preserves_auto|].
    intros _.
    apply (appends_bind warnings_of 0 7);
      [apply appends_preserves; preserves_auto|].
    intros _.
    apply (appends_bind warnings_of 5 2); [apply check_ports_budget|].
    intros _.
    apply (appends_bind warnings_of 1 1); [apply check_vertica_status_budget|].
    intros _.
    apply (appends_bind warnings_of 1 0);
      [apply check_kafka_connectivity_budget|].
    intros _.
    apply (appends_bind warnings_of 0 0);
      [apply appends_preserves; preserves_auto|].
    intros _.
    apply (appends_bind warnings_of 0 0).
    + apply appends_preserves, preserves_validator_warnings,
        generate_report_validator.
    + intros success. apply appends_preserves. intros s. reflexivity.
Qed.

(** Where [main] stands once it has printed its heading and made its
    validator. *)
Lemma main_from_init (env : environment) (s : state) :
  main env s
  = (check_directories env ;; check_docker_containers env ;;
     check_network_connectivity env ;; check_ports env ;;
     check_vertica_status env ;; check_kafka_connectivity env ;;
     check_notebook_files env ;;
     success <- generate_report ;; ret (if success then 0%Z else 1%Z))
      (mkState (mkPipelineValidator [] [])
         (sys_stdout s
          ++ ["🔍 Real-Time SMS Pipeline Validation";
              "====================================";
              ("⏰ Timestamp: " ++ datetime_now env)%string])
         (sockets s)).
Proof.
  unfold main. rewrite !bind_print. unfold init, bind at 1, set_validator.
  cbn [validator sys_stdout sockets].
  repeat (rewrite <- app_assoc; cbn [app]). reflexivity.
Qed.

(** X4: whatever the environment and however the run ends, the script
    records at most nine errors and at most seven warnings. *)
Theorem run_script_logs_bounded (env : environment) :
  length (errors (validator (snd (run_script env)))) <= 9
  /\ length (warnings (validator (snd (run_script env)))) <= 7.
Proof.
  rewrite snd_run_script, main_from_init.
  destruct (main_budget env) as [He Hw].
  match goal with
  | |- context [snd (_ ?st)] =>
      destruct (He st) as [ea [H1 L1]]; destruct (Hw st) as [wa [H2 L2]]
  end.
  unfold errors_of in H1. unfold warnings_of in H2. rewrite H1, H2.
  split; assumption.
Qed.

Example nothing_env_fills_the_logs :
  fst (run_script nothing_env) = Exited 1
  /\ length (errors (validator (snd (run_script nothing_env)))) = 9
  /\ length (warnings (validator (snd (run_script nothing_env)))) = 7.
Proof. repeat split; vm_compute; reflexivity. Qed.

(** ** Exceptions of the commands *)

Lemma check_docker_containers_ends (env : environment) (s : state) :
  fst (check_docker_containers env s)
  = match subprocess_run env docker_ps with
    | inl e => if isinstance e Exception then Ok tt else Raise e
    | inr _ => Ok tt
    end.
Proof.
  destruct (subprocess_run env docker_ps) as [e|result] eqn:Hrun.
  - rewrite (check_docker_containers_raised env s e Hrun).
    destruct (isinstance e Exception); reflexivity.
  - rewrite (check_docker_containers_completed env s result Hrun).
    reflexivity.
Qed.

Lemma check_network_connectivity_ends (env : environment) (s : state) :
  fst (check_network_connectivity env s)
  = match subprocess_run env docker_ping with
    | inl e => if isinstance e Exception then Ok tt else Raise e
    | inr _ => Ok tt
    end.
Proof.
  unfold check_network_connectivity. rewrite bind_print.
  unfold try_except, run.
  destruct (subprocess_run env docker_ping) as [e|result]; cbn [os_call].
  - unfold bind, raise. destruct (isinstance e Exception); reflexivity.
  - rewrite bind_ret. destruct (returncode result =? 0)%Z; reflexivity.
Qed.

Lemma check_vertica_status_ends (env : environment) (s : state) :
  fst (check_vertica_status env s)
  = match subprocess_run env vsql_select with
    | inl e => if isinstance e Exception then Ok tt else Raise e
    | inr _ => Ok tt
    end.
Proof.
  unfold check_vertica_status. rewrite bind_print.
  unfold try_except, run.
  destruct (subprocess_run env vsql_select) as [e|result]; cbn [os_call].
  - unfold bind, raise. destruct (isinstance e Exception); reflexivity.
  - rewrite bind_ret. destruct (returncode result =? 0)%Z; reflexivity.
Qed.

(** X5: the three routines that run a command end in an exception only
    when starting the command raised one that is not an [Exception], and
    then it is that exception; in every other case they return. *)
Theorem command_checks_contain_exceptions (env : environment) (s : state) :
  fst (check_docker_containers env s)
  = match subprocess_run env docker_ps with
    | inl e => if isinstance e Exception then Ok tt else Raise e
    | inr _ => Ok tt
    end
  /\ fst (check_network_connectivity env s)
     = match subprocess_run env docker_ping with
       | inl e => if isinstance e Exception then Ok tt else Raise e
       | inr _ => Ok tt
       end
  /\ fst (check_vertica_status env s)
     = match subprocess_run env vsql_select with
       | inl e => if isinstance e Exception then Ok tt else Raise e
       | inr _ => Ok tt
       end.
Proof.
  split; [apply check_docker_containers_ends|].
  split; [apply check_network_connectivity_ends
         | apply check_vertica_status_ends].
Qed.

(** ** The checks of paths *)

Lemma os_path_exists_Ok (env : environment) (path : string) (s s' : state)
    (found : bool) :
  os_path_exists env path s = (Ok found, s') ->
  found = path_exists env path /\ s' = s.
Proof.
  unfold os_path_exists, path_exists.
  destruct (os_stat env path) as [e|].
  - destruct (isinstance e OSError || isinstance e ValueError);
      unfold ret, raise; intros H; inversion H; split; reflexivity.
  - unfold ret. intros H. inversion H. split; reflexivity.
Qed.

Lemma for_each_directory (env : environment) (l : list string) (s s' : state) :
  for_each l (fun directory =>
    found <- os_path_exists env directory ;;
    if found then log_success ("Directory exists: " ++ directory)
    else log_error ("Directory missing: " ++ directory)) s = (Ok tt, s') ->
  s' = mkState
         (mkPipelineValidator
            (errors (validator s)
             ++ map missing_dir
                  (filter (fun d => negb (path_exists env d)) l))
            (warnings (validator s)))
         (sys_stdout s ++ map (dir_line env) l)
         (sockets s).
Proof.
  revert s. induction l as [|d l IH]; intros s H.
  - cbn [for_each] in H. unfold ret in H. inversion H. subst s'.
    cbn [filter map]. rewrite !app_nil_r. destruct s as [[es ws] out socks].
    reflexivity.
  - cbn [for_each] in H. rewrite bind_assoc in H.
    apply bind_Ok_inv in H. destruct H as [found [s1 [Hex H]]].
    apply os_path_exists_Ok in Hex. destruct Hex as [Hfound Hs1]. subst s1.
    cbn [filter map]. unfold dir_line at 1. rewrite <- Hfound.
    destruct found; cbn [negb].
    + rewrite (bind_Ok _ _ _ _ _ (log_success_runs _ s)) in H.
      apply IH in H. subst s'.
      cbn [validator errors warnings sys_stdout sockets].
      rewrite <- app_assoc. reflexivity.
    + rewrite (bind_Ok _ _ _ _ _ (log_error_runs _ s)) in H.
      apply IH in H. subst s'.
      cbn [validator errors warnings sys_stdout sockets map].
      rewrite <- !app_assoc. reflexivity.
Qed.

Lemma successes_dir_lines (env : environment) (l : list string) :
  successes (map (dir_line env) l) = length (filter (path_exists env) l).
Proof.
  unfold successes. induction l as [|d l IH]; [reflexivity|].
  cbn [map filter]. unfold dir_line at 1.
  destruct (path_exists env d).
  - change (is_success_line ("✅ Directory exists: " ++ d)) with true.
    cbn [length]. rewrite IH. reflexivity.
  - change (is_success_line ("❌ ERROR: Directory missing: " ++ d)) with false.
    exact IH.
Qed.

(** X6: when [check_directories] returns, the errors it appended are
    "Directory missing" for the required directories that do not exist, in
    the order of the list, a directory whose [os.stat] raises an [OSError]
    counting as one that does not exist; and it printed one success line
    for each directory that exists. *)
Theorem check_directories_returns (env : environment) (s s' : state) :
  check_directories env s = (Ok tt, s') ->
  errors (validator s')
  = (errors (validator s)
     ++ map missing_dir
          (filter (fun d => negb (path_exists env d)) required_dirs))%list
  /\ successes (printed (check_directories env) s)
     = length (filter (path_exists env) required_dirs).
Proof.
  intros H. pose proof H as Hrun.
  unfold check_directories in H. rewrite bind_print in H.
  apply for_each_directory in H.
  cbn [validator errors warnings sys_stdout sockets] in H.
  rewrite <- app_assoc in H. cbn [app] in H. split.
  - subst s'. reflexivity.
  - erewrite printed_app by (rewrite Hrun, H; reflexivity).
    change (successes (?h :: ?t)) with (successes t).
    apply successes_dir_lines.
Qed.

Lemma check_directories_returns_witness :
  errors (validator (snd (check_directories one_dir_env initial_state)))
  = ["Directory missing: /home/homar/spark-kafka-stream/checkpoints"]
  /\ successes (printed (check_directories one_dir_env) initial_state) = 2.
Proof.
  apply (check_directories_returns one_dir_env initial_state
           (snd (check_directories one_dir_env initial_state))).
  vm_compute. reflexivity.
Defined.

(** X7: a notebook whose [os.stat] raises an [OSError] (the path cannot be
    read, say) is reported as not found: [check_notebook_files] appends its
    one error and returns. *)
Theorem check_notebook_files_unreadable (env : environment) (s : state)
    (e : exception) :
  os_stat env notebook_path = Some e ->
  isinstance e OSError = true ->
  check_notebook_files env s
  = (Ok tt,
     mkState
       (mkPipelineValidator
          (errors (validator s)
           ++ ["Pipeline notebook not found in scripts directory"])
          (warnings (validator s)))
       (sys_stdout s
        ++ [(nl ++ "📋 Checking notebook files...")%string;
            "❌ ERROR: Pipeline notebook not found in scripts directory"])
       (sockets s)).
Proof.
  intros Hstat He. unfold check_notebook_files. rewrite bind_print.
  unfold os_path_exists. rewrite Hstat, He. cbn [orb].
  rewrite bind_ret, log_error_runs.
  cbn [validator errors warnings sys_stdout sockets].
  rewrite <- app_assoc. reflexivity.
Qed.

Lemma check_notebook_files_unreadable_witness :
  check_notebook_files unreadable_notebook_env initial_state
  = (Ok tt,
     mkState
       (mkPipelineValidator
          ["Pipeline notebook not found in scripts directory"] [])
       [(nl ++ "📋 Checking notebook files...")%string;
        "❌ ERROR: Pipeline notebook not found in scripts directory"]
       []).
Proof.
  apply (check_notebook_files_unreadable unreadable_notebook_env initial_state
           (mkException PermissionError "[Errno 13] Permission denied"));
    reflexivity.
Defined.

(** ** The Kafka check *)

Lemma check_kafka_connectivity_resolved (env : environment) (s : state)
    (address : string) :
  socket_gethostbyname env kafka_host = inr address ->
  check_kafka_connectivity env s
  = (Ok tt,
     mkState (validator s)
       (sys_stdout s
        ++ [(nl ++ "📡 Checking Kafka connectivity...")%string;
            "✅ Kafka hostname can be resolved"])
       (sockets s)).
Proof.
  intros Hdns. unfold check_kafka_connectivity. rewrite bind_print.
  unfold try_except, gethostbyname. rewrite kafka_server_split.
  unfold py_index. cbn [nth_error]. fold kafka_host. rewrite bind_ret, Hdns.
  cbn [os_call]. rewrite bind_ret, log_success_runs.
  cbn [validator errors warnings sys_stdout sockets].
  rewrite <- app_assoc. reflexivity.
Qed.

(** X8: [check_kafka_connectivity] looks up the host without its port; it
    returns exactly when the lookup returns or raises a [gaierror], and it
    logs one warning in the second case and nothing in any other. *)
Theorem check_kafka_connectivity_outcome (env : environment) (s : state) :
  (fst (check_kafka_connectivity env s) = Ok tt
   <-> match socket_gethostbyname env kafka_host with
       | inr _ => True
       | inl e => isinstance e gaierror = true
       end)
  /\ validator (snd (check_kafka_connectivity env s))
     = mkPipelineValidator (errors (validator s))
         (warnings (validator s)
          ++ match socket_gethostbyname env kafka_host with
             | inr _ => []
             | inl e =>
                 if isinstance e gaierror
                 then ["Cannot resolve Kafka hostname - ensure VPN is connected"]
                 else []
             end).
Proof.
  destruct (socket_gethostbyname env kafka_host) as [e|address] eqn:Hdns.
  - destruct (isinstance e gaierror) eqn:Hgai.
    + rewrite (check_kafka_connectivity_gaierror env s e Hdns Hgai).
      split; [split; reflexivity | reflexivity].
    + rewrite (check_kafka_connectivity_uncaught env s e Hdns Hgai).
      cbn [fst snd validator]. rewrite app_nil_r. split.
      * split; intros H; discriminate H.
      * destruct (validator s); reflexivity.
  - rewrite (check_kafka_connectivity_resolved env s address Hdns).
    cbn [fst snd validator]. rewrite app_nil_r. split.
    + split; [intros _; exact I | reflexivity].
    + destruct (validator s); reflexivity.
Qed.

(** ** The ports *)

Lemma success_line_is_success (message : string) :
  is_success_line ("✅ " ++ message) = true.
Proof. apply prefix_app. Qed.

(** A turn of the loop that returns printed one line, a success or the
    warning it appended. *)
Lemma check_port_Ok (env : environment) (entry : Z * string) (s s' : state) :
  check_port env entry s = (Ok tt, s') ->
  exists line added,
    sys_stdout s' = (sys_stdout s ++ [line])%list
    /\ warnings_of s' = (warnings_of s ++ added)%list
    /\ successes [line] + length added = 1.
Proof.
  intros H. destruct entry as [port service].
  destruct (socket_socket env (length (sockets s))) as [e|] eqn:Hsock.
  - rewrite (check_port_no_socket env _ s e Hsock) in H. discriminate H.
  - rewrite (check_port_runs env port service s Hsock) in H. cbv zeta in H.
    destruct (socket_connect_ex env "localhost" port (Some 3%Z)) as [e|r];
      [destruct (isinstance e Exception) | destruct (r =? 0)%Z];
      try discriminate H; injection H as Hs; subst s';
      cbn [sys_stdout warnings_of validator warnings].
    + eexists. eexists. split; [reflexivity|]. split; [reflexivity|].
      unfold successes. cbn [filter].
      change (is_success_line _) with false. reflexivity.
    + eexists. exists []. split; [reflexivity|].
      split; [rewrite app_nil_r; reflexivity|].
      unfold successes. cbn [filter].
      change (is_success_line _) with
        (is_success_line
           ("✅ " ++ (service ++ " accessible on port " ++ PyStr.of_int port))).
      rewrite success_line_is_success. reflexivity.
    + eexists. eexists. split; [reflexivity|]. split; [reflexivity|].
      unfold successes. cbn [filter].
      change (is_success_line _) with false. reflexivity.
Qed.

Lemma successes_app (l1 l2 : list string) :
  successes (l1 ++ l2) = successes l1 + successes l2.
Proof. unfold successes. rewrite filter_app, length_app. reflexivity. Qed.

Lemma for_each_check_port_Ok (env : environment) (l : list (Z * string))
    (s s' : state) :
  for_each l (check_port env) s = (Ok tt, s') ->
  exists new added,
    sys_stdout s' = (sys_stdout s ++ new)%list
    /\ warnings_of s' = (warnings_of s ++ added)%list
    /\ successes new + length added = length l.
Proof.
  revert s. induction l as [|entry l IH]; intros s H.
  - cbn [for_each] in H. unfold ret in H. inversion H. subst s'.
    exists [], []. rewrite !app_nil_r. repeat split; reflexivity.
  - cbn [for_each] in H. apply bind_Ok_inv in H.
    destruct H as [[] [s1 [Hturn Hrest]]].
    apply check_port_Ok in Hturn.
    destruct Hturn as [line [a1 [Hout1 [Hw1 Hc1]]]].
    apply IH in Hrest. destruct Hrest as [new [a2 [Hout2 [Hw2 Hc2]]]].
    exists (line :: new), (a1 ++ a2)%list. split; [|split].
    + rewrite Hout2, Hout1, <- app_assoc. reflexivity.
    + rewrite Hw2, Hw1, app_assoc. reflexivity.
    + change (line :: new) with ([line] ++ new)%list.
      rewrite successes_app, length_app. cbn [length]. lia.
Qed.

(** X9: when [check_ports] returns, each of the five ports gave either a
    success line or a warning, never both and never none: the success
    lines and the warnings appended add up to five. *)
Theorem check_ports_accounts_for_every_port (env : environment)
    (s s' : state) :
  check_ports env s = (Ok tt, s') ->
  successes (printed (check_ports env) s) + length (warnings (validator s'))
  = length (warnings (validator s)) + 5.
Proof.
  intros H. pose proof H as Hrun.
  unfold check_ports in H. rewrite bind_print in H.
  apply for_each_check_port_Ok in H.
  destruct H as [new [added [Hout [Hw Hc]]]].
  cbn [sys_stdout warnings_of validator] in Hout, Hw.
  rewrite <- app_assoc in Hout. cbn [app] in Hout.
  erewrite printed_app by (rewrite Hrun; exact Hout).
  unfold warnings_of in Hw. rewrite Hw, length_app.
  change (successes (?h :: new)) with (successes new).
  cbn [length ports_to_check] in Hc. cbn [validator]. lia.
Qed.

Lemma check_ports_accounts_for_every_port_witness :
  successes (printed (check_ports jupyter_only_env) initial_state)
  + length (warnings (validator (snd (check_ports jupyter_only_env initial_state))))
  = length (warnings (validator initial_state)) + 5.
Proof.
  apply (check_ports_accounts_for_every_port jupyter_only_env initial_state
           (snd (check_ports jupyter_only_env initial_state))).
  vm_compute. reflexivity.
Defined.

(** X10: [socket.socket] stands before the [try]: when the socket of the
    first port cannot be created, [check_ports] logs nothing and ends in
    that exception, an [OSError] included, and no port is checked. *)
Theorem check_ports_socket_failure (env : environment) (s : state)
    (e : exception) :
  socket_socket env (length (sockets s)) = Some e ->
  check_ports env s
  = (Raise e,
     mkState (validator s)
       (sys_stdout s ++ [(nl ++ "🔌 Checking port accessibility...")%string])
       (sockets s)).
Proof.
  intros Hsock. unfold check_ports, ports_to_check. rewrite bind_print.
  cbn [for_each].
  apply bind_Raise. apply check_port_no_socket. exact Hsock.
Qed.

Lemma check_ports_socket_failure_witness :
  check_ports no_socket_env initial_state
  = (Raise no_socket_error,
     mkState (mkPipelineValidator [] [])
       [(nl ++ "🔌 Checking port accessibility...")%string] [])
  /\ isinstance no_socket_error Exception = true.
Proof.
  split; [|reflexivity].
  apply (check_ports_socket_failure no_socket_env initial_state no_socket_error).
  reflexivity.
Defined.

(** ** Which containers are reported *)

Lemma contains_In (l : list string) (x : string) :
  PyStr.contains l x = true <-> In x l.
Proof.
  unfold PyStr.contains. rewrite existsb_exists. split.
  - intros [y [Hy Heq]]. apply String.eqb_eq in Heq. subst y. exact Hy.
  - intros H. exists x. split; [exact H | apply String.eqb_refl].
Qed.

Lemma append_inj (p a b : string) : (p ++ a = p ++ b)%string -> a = b.
Proof.
  induction p as [|c p IH]; cbn [String.append]; intros H.
  - exact H.
  - injection H as H. exact (IH H).
Qed.

Lemma successes_container_lines (running l : list string) :
  successes (map (container_line running) l)
  + length (filter (fun c => negb (PyStr.contains running c)) l)
  = length l.
Proof.
  unfold successes. induction l as [|c l IH]; [reflexivity|].
  cbn [map filter]. unfold container_line at 1.
  destruct (PyStr.contains running c); cbn [negb].
  - change (is_success_line ("✅ Container running: " ++ c))
      with (is_success_line ("✅ " ++ ("Container running: " ++ c))).
    rewrite success_line_is_success. cbn [length]. lia.
  - change (is_success_line ("❌ ERROR: Container not running: " ++ c))
      with false.
    cbn [length]. lia.
Qed.

(** X11: when the command completes, [check_docker_containers] appends the
    error of a required container exactly when no line of the output is
    that name (a longer name on a line does not count), and each of the
    four containers gets a success line or an error. *)
Theorem check_docker_containers_reports (env : environment) (s : state)
    (result : CompletedProcess) :
  subprocess_run env docker_ps = inr result ->
  exists added,
    errors (validator (snd (check_docker_containers env s)))
    = (errors (validator s) ++ added)%list
    /\ (forall container,
          In container required_containers ->
          (In (not_running container) added <-> ~ In container (listed result)))
    /\ successes (printed (check_docker_containers env) s) + length added = 4.
Proof.
  intros Hrun.
  pose proof (check_docker_containers_completed env s result Hrun) as H.
  cbv zeta in H. fold (listed result) in H.
  eexists. split; [rewrite H; reflexivity|]. split.
  - intros c Hc. rewrite in_map_iff. split.
    + intros [c' [Heq Hin]]. apply append_inj in Heq. subst c'.
      apply filter_In in Hin. destruct Hin as [_ Hneg].
      intros Hl. apply contains_In in Hl. rewrite Hl in Hneg.
      discriminate Hneg.
    + intros Hnot. exists c. split; [reflexivity|].
      apply filter_In. split; [exact Hc|].
      destruct (PyStr.contains (listed result) c) eqn:Hl; [|reflexivity].
      apply contains_In in Hl. contradiction.
  - erewrite printed_app by (rewrite H; reflexivity).
    change (successes (?h :: ?t)) with (successes t).
    rewrite length_map.
    apply (successes_container_lines (listed result) required_containers).
Qed.

Lemma check_docker_containers_reports_witness :
  exists added,
    errors (validator (snd (check_docker_containers two_running_env initial_state)))
    = (errors (validator initial_state) ++ added)%list
    /\ (forall container,
          In container required_containers ->
          (In (not_running container) added
           <-> ~ In container
                  (listed (mkCompletedProcess 0
                             ("spark-master" ++ nl ++ "pg-db" ++ nl) ""))))
    /\ successes (printed (check_docker_containers two_running_env) initial_state)
       + length added = 4.
Proof.
  apply (check_docker_containers_reports two_running_env initial_state).
  reflexivity.
Defined.

(** ** Which exceptions get out *)

Section RaisesOnly.

Variable allowed : exception -> bool.

Lemma raises_only_ret {A} (a : A) : raises_only allowed (ret a).
Proof. intros s. exact I. Qed.

Lemma raises_only_print (line : string) : raises_only allowed (print line).
Proof. intros s. exact I. Qed.

Lemma raises_only_os_call {A} (answer : exception + A) :
  (forall e, answer = inl e -> allowed e = true) ->
  raises_only allowed (os_call answer).
Proof.
  intros H s. destruct answer as [e|a]; [|exact I]. apply H. reflexivity.
Qed.

Lemma raises_only_bind {A B} (m : M A) (k : A -> M B) :
  raises_only allowed m -> (forall a, raises_only allowed (k a)) ->
  raises_only allowed (bind m k).
Proof.
  intros Hm Hk s. unfold bind. specialize (Hm s).
  destruct (m s) as [[a|e] s1]; cbn [fst] in *; [apply Hk | exact Hm].
Qed.

Lemma raises_only_for_each {A} (l : list A) (body : A -> M unit) :
  (forall x, raises_only allowed (body x)) ->
  raises_only allowed (for_each l body).
Proof.
  intros Hb. induction l as [|x l IH]; cbn [for_each].
  - apply raises_only_ret.
  - apply raises_only_bind; [apply Hb | intros _; exact IH].
Qed.

(** A handler that takes what the body raises leaves what it raises
    itself. *)
Lemma raises_only_try_except {A} (body : M A) (catches : exception -> bool)
    (handler : exception -> M A) :
  raises_only catches body ->
  (forall e, raises_only allowed (handler e)) ->
  raises_only allowed (try_except body catches handler).
Proof.
  intros Hb Hh s. unfold try_except. specialize (Hb s).
  destruct (body s) as [[a|e] s1]; cbn [fst] in *; [exact I|].
  rewrite Hb. apply Hh.
Qed.

Lemma raises_only_try_finally {A} (body : M A) (final : M unit) :
  raises_only allowed body -> raises_only allowed final ->
  raises_only allowed (try_finally body final).
Proof.
  intros Hb Hf s. unfold try_finally. specialize (Hb s).
  destruct (body s) as [r s1]. specialize (Hf s1).
  destruct (final s1) as [[u|e] s2]; cbn [fst] in *; assumption.
Qed.

Lemma raises_only_log_error (message : string) :
  raises_only allowed (log_error message).
Proof. intros s. exact I. Qed.

Lemma raises_only_log_warning (message : string) :
  raises_only allowed (log_warning message).
Proof. intros s. exact I. Qed.

Lemma raises_only_log_success (message : string) :
  raises_only allowed (log_success message).
Proof. intros s. exact I. Qed.

Lemma raises_only_settimeout (sock : nat) (t : Z) :
  raises_only allowed (settimeout sock t).
Proof. intros s. exact I. Qed.

Lemma raises_only_close (sock : nat) : raises_only allowed (close sock).
Proof. intros s. exact I. Qed.

End RaisesOnly.

Section Handled.

Variable env : environment.
Hypothesis Hhandled : handled_answers env.

Lemma returns_os_path_exists (path : string) :
  returns (os_path_exists env path).
Proof.
  intros s. unfold os_path_exists. destruct Hhandled as [Hstat _].
  destruct (os_stat env path) as [e|] eqn:He; [|exact I].
  rewrite (Hstat path e He). exact I.
Qed.

Lemma run_raises_Exception (argv : list string) :
  raises_only (fun e => isinstance e Exception) (run env argv).
Proof.
  unfold run. apply raises_only_os_call. intros e He.
  destruct Hhandled as [_ [Hrun _]]. exact (Hrun argv e He).
Qed.

Lemma returns_new_socket : returns (new_socket env).
Proof.
  intros s. unfold new_socket. destruct Hhandled as [_ [_ [Hsock _]]].
  rewrite Hsock. exact I.
Qed.

Lemma connect_ex_raises_Exception (sock : nat) (host : string) (port : Z) :
  raises_only (fun e => isinstance e Exception) (connect_ex env sock host port).
Proof.
  intros s. unfold connect_ex.
  destruct (nth_error (sockets s) sock) as [o|]; [|reflexivity].
  destruct (sock_closed o); [reflexivity|].
  destruct Hhandled as [_ [_ [_ [Hconn _]]]].
  destruct (socket_connect_ex env host port (sock_timeout o)) as [e|r] eqn:He;
    [|exact I].
  exact (Hconn host port _ e He).
Qed.

Lemma gethostbyname_raises_gaierror (host : string) :
  raises_only (fun e => isinstance e gaierror) (gethostbyname env host).
Proof.
  unfold gethostbyname. apply raises_only_os_call. intros e He.
  destruct Hhandled as [_ [_ [_ [_ Hdns]]]]. exact (Hdns host e He).
Qed.

Lemma returns_check_directories : returns (check_directories env).
Proof.
  unfold check_directories, returns.
  apply raises_only_bind; [apply raises_only_print | intros _].
  apply raises_only_for_each. intros directory.
  apply raises_only_bind; [apply returns_os_path_exists | intros found].
  destruct found; [apply raises_only_log_success | apply raises_only_log_error].
Qed.

Lemma returns_check_docker_containers : returns (check_docker_containers env).
Proof.
  unfold check_docker_containers, returns.
  apply raises_only_bind; [apply raises_only_print | intros _].
  apply raises_only_try_except; [|intros e; apply raises_only_log_error].
  apply raises_only_bind; [apply run_raises_Exception | intros result].
  apply raises_only_for_each. intros container.
  destruct (PyStr.contains _ container);
    [apply raises_only_log_success | apply raises_only_log_error].
Qed.

Lemma returns_check_network_connectivity :
  returns (check_network_connectivity env).
Proof.
  unfold check_network_connectivity, returns.
  apply raises_only_bind; [apply raises_only_print | intros _].
  apply raises_only_try_except; [|intros e; apply raises_only_log_error].
  apply raises_only_bind; [apply run_raises_Exception | intros result].
  destruct (returncode result =? 0)%Z;
    [apply raises_only_log_success | apply raises_only_log_error].
Qed.

Lemma returns_check_ports : returns (check_ports env).
Proof.
  unfold check_ports, returns.
  apply raises_only_bind; [apply raises_only_print | intros _].
  apply raises_only_for_each. intros [port service]. unfold check_port.
  apply raises_only_bind; [apply returns_new_socket | intros sock].
  apply raises_only_bind; [apply raises_only_settimeout | intros _].
  apply raises_only_try_finally; [|apply raises_only_close].
  apply raises_only_try_except; [|intros e; apply raises_only_log_warning].
  apply raises_only_bind; [apply connect_ex_raises_Exception | intros r].
  destruct (r =? 0)%Z;
    [apply raises_only_log_success | apply raises_only_log_warning].
Qed.

Lemma returns_check_vertica_status : returns (check_vertica_status env).
Proof.
  unfold check_vertica_status, returns.
  apply raises_only_bind; [apply raises_only_print | intros _].
  apply raises_only_try_except; [|intros e; apply raises_only_log_warning].
  apply raises_only_bind; [apply run_raises_Exception | intros result].
  destruct (returncode result =? 0)%Z;
    [apply raises_only_log_success | apply raises_only_log_warning].
Qed.

Lemma returns_check_kafka_connectivity :
  returns (check_kafka_connectivity env).
Proof.
  intros s. unfold check_kafka_connectivity. rewrite bind_print.
  unfold try_except. rewrite kafka_server_split. unfold py_index.
  cbn [nth_error]. rewrite bind_ret.
  pose proof (gethostbyname_raises_gaierror
                "strimzi-kafka-cluster-oci-preprod-kafka-bootstrap.strimzi-kafka-preprod"
                (mkState (validator s)
                   (sys_stdout s ++ [(nl ++ "📡 Checking Kafka connectivity...")%string])
                   (sockets s))) as H.
  unfold bind.
  destruct (gethostbyname env _ _) as [[a|e] s1]; cbn [fst] in H.
  - exact I.
  - rewrite H. exact I.
Qed.

Lemma returns_check_notebook_files : returns (check_notebook_files env).
Proof.
  unfold check_notebook_files, returns.
  apply raises_only_bind; [apply raises_only_print | intros _].
  apply raises_only_bind; [apply returns_os_path_exists | intros found].
  destruct found; [apply raises_only_log_success | apply raises_only_log_error].
Qed.

End Handled.

Lemma returns_Ok {A} (m : M A) (s : state) :
  returns m -> exists a s', m s = (Ok a, s').
Proof.
  intros H. specialize (H s). destruct (m s) as [[a|e] s1]; cbn [fst] in H.
  - exists a, s1. reflexivity.
  - discriminate H.
Qed.

(** X12: when the operating-system calls raise only what the routines
    take ([os.stat] an [OSError] or a [ValueError], the commands and the
    connects an instance of [Exception], the lookup a [gaierror]) and the
    sockets can be created, no exception of an operating-system call
    leaves a check routine: each of the seven returns. *)
Theorem handled_answers_checks_return (env : environment) :
  handled_answers env ->
  returns (check_directories env)
  /\ returns (check_docker_containers env)
  /\ returns (check_network_connectivity env)
  /\ returns (check_ports env)
  /\ returns (check_vertica_status env)
  /\ returns (check_kafka_connectivity env)
  /\ returns (check_notebook_files env).
Proof.
  intros Hh.
  split; [exact (returns_check_directories env Hh)|].
  split; [exact (returns_check_docker_containers env Hh)|].
  split; [exact (returns_check_network_connectivity env Hh)|].
  split; [exact (returns_check_ports env Hh)|].
  split; [exact (returns_check_vertica_status env Hh)|].
  split; [exact (returns_check_kafka_connectivity env Hh)|].
  exact (returns_check_notebook_files env Hh).
Qed.

Lemma handled_answers_checks_return_witness :
  returns (check_directories docker_missing_env)
  /\ returns (check_docker_containers docker_missing_env)
  /\ returns (check_network_connectivity docker_missing_env)
  /\ returns (check_ports docker_missing_env)
  /\ returns (check_vertica_status docker_missing_env)
  /\ returns (check_kafka_connectivity docker_missing_env)
  /\ returns (check_notebook_files docker_missing_env).
Proof.
  apply (handled_answers_checks_return docker_missing_env).
  repeat split.
  - intros path e H. discriminate H.
  - intros argv e H. injection H as H. subst e. reflexivity.
  - intros host port timeout e H. discriminate H.
  - intros host e H. discriminate H.
Defined.

(** ** The verdict *)

Lemma filter_nil_all {A} (f : A -> bool) (l : list A) :
  filter f l = [] -> forall x, In x l -> f x = false.
Proof.
  induction l as [|y l IH]; intros H x Hx; [destruct Hx|].
  cbn [filter] in H. destruct (f y) eqn:Hy; [discriminate H|].
  destruct Hx as [Hx|Hx]; [subst y; exact Hy | exact (IH H x Hx)].
Qed.

Lemma all_filter_nil {A} (f : A -> bool) (l : list A) :
  (forall x, In x l -> f x = false) -> filter f l = [].
Proof.
  induction l as [|y l IH]; intros H; [reflexivity|].
  cbn [filter]. rewrite (H y (or_introl eq_refl)).
  apply IH. intros x Hx. apply H. right. exact Hx.
Qed.

Lemma app_self_nil {A} (l added : list A) : (l ++ added)%list = l -> added = [].
Proof.
  intros H. apply (app_inv_head l). rewrite app_nil_r. exact H.
Qed.

Lemma path_exists_stat (env : environment) (path : string) :
  negb (path_exists env path) = false <-> os_stat env path = None.
Proof.
  unfold path_exists. destruct (os_stat env path); split; intros H;
    try reflexivity; discriminate H.
Qed.

(** A routine of error severity that returns without a new error found
    what it looked for. *)
Lemma check_directories_clean (env : environment) (s s' : state) :
  check_directories env s = (Ok tt, s') ->
  errors_of s' = errors_of s ->
  forall directory, In directory required_dirs -> os_stat env directory = None.
Proof.
  intros H He. unfold check_directories in H. rewrite bind_print in H.
  apply for_each_directory in H. subst s'.
  cbn [errors_of validator errors] in He. apply app_self_nil in He.
  apply map_eq_nil in He. intros d Hd. apply path_exists_stat.
  exact (filter_nil_all _ _ He d Hd).
Qed.

Lemma check_docker_containers_clean (env : environment) (s s' : state) :
  check_docker_containers env s = (Ok tt, s') ->
  errors_of s' = errors_of s ->
  exists result,
    subprocess_run env docker_ps = inr result
    /\ forall container,
         In container required_containers -> In container (listed result).
Proof.
  intros H He.
  destruct (subprocess_run env docker_ps) as [e|result] eqn:Hrun.
  - rewrite (check_docker_containers_raised env s e Hrun) in H.
    destruct (isinstance e Exception); [|discriminate H].
    cbv zeta in H. apply pair_equal_spec in H. destruct H as [_ H]. subst s'.
    cbn [errors_of validator errors] in He. apply app_self_nil in He.
    discriminate He.
  - rewrite (check_docker_containers_completed env s result Hrun) in H.
    cbv zeta in H. apply pair_equal_spec in H. destruct H as [_ H]. subst s'.
    cbn [errors_of validator errors] in He. apply app_self_nil in He.
    apply map_eq_nil in He. exists result. split; [reflexivity|].
    intros c Hc. apply contains_In.
    pose proof (filter_nil_all
                  (fun c => negb (PyStr.contains (listed result) c))
                  required_containers He c Hc) as Hf.
    cbv beta in Hf.
    destruct (PyStr.contains (listed result) c); [reflexivity | discriminate Hf].
Qed.

Lemma check_network_connectivity_clean (env : environment) (s s' : state) :
  check_network_connectivity env s = (Ok tt, s') ->
  errors_of s' = errors_of s ->
  exists result,
    subprocess_run env docker_ping = inr result /\ returncode result = 0%Z.
Proof.
  intros H He. unfold check_network_connectivity in H.
  rewrite bind_print in H. unfold try_except, run in H.
  destruct (subprocess_run env docker_ping) as [e|result];
    cbn [os_call] in H.
  - unfold bind, raise in H. destruct (isinstance e Exception);
      [|discriminate H].
    rewrite log_error_runs in H. injection H as H. subst s'.
    cbn [errors_of validator errors] in He. apply app_self_nil in He.
    discriminate He.
  - rewrite bind_ret in H. exists result. split; [reflexivity|].
    destruct (returncode result =? 0)%Z eqn:Hrc; [apply Z.eqb_eq; exact Hrc|].
    rewrite log_error_runs in H. injection H as H. subst s'.
    cbn [errors_of validator errors] in He. apply app_self_nil in He.
    discriminate He.
Qed.

Lemma check_notebook_files_clean (env : environment) (s s' : state) :
  check_notebook_files env s = (Ok tt, s') ->
  errors_of s' = errors_of s ->
  os_stat env notebook_path = None.
Proof.
  intros H He. unfold check_notebook_files in H. rewrite bind_print in H.
  apply bind_Ok_inv in H. destruct H as [found [s1 [Hex H]]].
  apply os_path_exists_Ok in Hex. destruct Hex as [Hfound Hs1]. subst s1.
  apply path_exists_stat. rewrite <- Hfound. destruct found; [reflexivity|].
  rewrite log_error_runs in H. injection H as H. subst s'.
  cbn [errors_of validator errors] in He. apply app_self_nil in He.
  discriminate He.
Qed.

Lemma appends_nil {A} (n : nat) (m : M A) (s : state) :
  appends errors_of n m ->
  errors_of (snd (m s)) = [] ->
  errors_of s = [].
Proof.
  intros H He. destruct (H s) as [added [Ha _]]. rewrite Ha in He.
  apply app_eq_nil in He. exact (proj1 He).
Qed.

Lemma main_reaches_report (env : environment) (s0 s : state) (code : Z) :
  main env s0 = (Ok code, s) ->
  exists s1 s2 s3 s4 s5 s6 s7,
    check_directories env s1 = (Ok tt, s2)
    /\ check_docker_containers env s2 = (Ok tt, s3)
    /\ check_network_connectivity env s3 = (Ok tt, s4)
    /\ check_ports env s4 = (Ok tt, s5)
    /\ check_vertica_status env s5 = (Ok tt, s6)
    /\ check_kafka_connectivity env s6 = (Ok tt, s7)
    /\ check_notebook_files env s7 = (Ok tt, mkState (validator s)
                                               (sys_stdout (snd (check_notebook_files env s7)))
                                               (sockets s))
    /\ validator s1 = mkPipelineValidator [] [].
Proof.
  intros H. rewrite main_from_init in H.
  eexists.
  apply bind_Ok_inv in H. destruct H as [[] [s2 [H1 H]]].
  apply bind_Ok_inv in H. destruct H as [[] [s3 [H2 H]]].
  apply bind_Ok_inv in H. destruct H as [[] [s4 [H3 H]]].
  apply bind_Ok_inv in H. destruct H as [[] [s5 [H4 H]]].
  apply bind_Ok_inv in H. destruct H as [[] [s6 [H5 H]]].
  apply bind_Ok_inv in H. destruct H as [[] [s7 [H6 H]]].
  apply bind_Ok_inv in H. destruct H as [[] [s8 [H7 H]]].
  unfold bind in H. rewrite generate_report_runs in H. unfold ret in H.
  injection H as _ Hs. subst s.
  exists s2, s3, s4, s5, s6, s7.
  cbn [validator sockets]. rewrite H7. cbn [snd].
  destruct s8 as [v8 out8 socks8]. cbn [validator sys_stdout sockets].
  repeat split; try eassumption; reflexivity.
Qed.

(** X13: an exit code of 0 means what it should: the three directories and
    the notebook exist, [docker ps] completed and listed the four
    containers, and the ping from Spark to Vertica returned 0. *)
Theorem exit_0_means_ready (env : environment) (s : state) :
  run_script env = (Exited 0%Z, s) -> ready env.
Proof.
  unfold run_script. intros H.
  destruct (main env initial_state) as [[c|e] s'] eqn:Hmain;
    [|discriminate H].
  injection H as Hc Hs. subst c s'.
  destruct (main_exit_code env initial_state s 0%Z Hmain) as [H0 _].
  pose proof (proj1 H0 eq_refl) as Hnil.
  destruct (main_reaches_report env initial_state s 0%Z Hmain)
    as [s1 [s2 [s3 [s4 [s5 [s6 [s7 [H1 [H2 [H3 [H4 [H5 [H6 [H7 Hv]]]]]]]]]]]]]].
  assert (E8 : errors_of (snd (check_notebook_files env s7)) = [])
    by (rewrite H7; exact Hnil).
  pose proof (appends_nil _ _ _ (check_notebook_files_budget env) E8) as E7.
  assert (E7' : errors_of (snd (check_kafka_connectivity env s6)) = [])
    by (rewrite H6; exact E7).
  assert (P6 : preserves errors_of (check_kafka_connectivity env))
    by preserves_auto.
  assert (E6 : errors_of s6 = []) by (rewrite <- (P6 s6); exact E7').
  assert (P5 : preserves errors_of (check_vertica_status env))
    by preserves_auto.
  assert (E5 : errors_of s5 = []).
  { rewrite <- (P5 s5), H5. exact E6. }
  assert (P4 : preserves errors_of (check_ports env)) by preserves_auto.
  assert (E4 : errors_of s4 = []).
  { rewrite <- (P4 s4), H4. exact E5. }
  assert (E3 : errors_of s3 = []).
  { apply (appends_nil _ _ _ (check_network_connectivity_budget env)).
    rewrite H3. exact E4. }
  assert (E2 : errors_of s2 = []).
  { apply (appends_nil _ _ _ (check_docker_containers_budget env)).
    rewrite H2. exact E3. }
  assert (E1 : errors_of s1 = []).
  { apply (appends_nil _ _ _ (check_directories_budget env)).
    rewrite H1. exact E2. }
  split; [|split; [|split]].
  - apply (check_directories_clean env s1 s2 H1). congruence.
  - apply (check_docker_containers_clean env s2 s3 H2). congruence.
  - apply (check_network_connectivity_clean env s3 s4 H3). congruence.
  - apply (check_notebook_files_clean env s7 _ H7).
    unfold errors_of at 1. cbn [validator]. fold (errors_of s).
    unfold errors_of at 1. rewrite Hnil. symmetry. exact E7.
Qed.

Lemma exit_0_means_ready_witness : ready ready_env.
Proof.
  apply (exit_0_means_ready ready_env (snd (run_script ready_env))).
  vm_compute. reflexivity.
Defined.

(** A routine that returns and never touches the errors list. *)
Lemma returns_clean {A} (m : M A) (s : state) :
  returns m -> preserves errors_of m ->
  exists a s', m s = (Ok a, s') /\ errors_of s' = errors_of s.
Proof.
  intros Hr Hp. destruct (returns_Ok m s Hr) as [a [s' H]].
  exists a, s'. split; [exact H|]. rewrite <- (Hp s), H. reflexivity.
Qed.

Lemma for_each_directory_ready (env : environment) (l : list string)
    (s : state) :
  (forall directory, In directory l -> os_stat env directory = None) ->
  exists s',
    for_each l (fun directory =>
      found <- os_path_exists env directory ;;
      if found then log_success ("Directory exists: " ++ directory)
      else log_error ("Directory missing: " ++ directory)) s = (Ok tt, s')
    /\ errors_of s' = errors_of s.
Proof.
  revert s. induction l as [|d l IH]; intros s H.
  - exists s. split; reflexivity.
  - cbn [for_each]. rewrite bind_assoc. unfold os_path_exists at 1.
    rewrite (H d (or_introl eq_refl)), bind_ret.
    rewrite (bind_Ok _ _ _ _ _ (log_success_runs _ s)).
    match goal with
    | |- context [for_each l _ ?st] => destruct (IH st) as [s' [Hrun He]]
    end.
    + intros d' Hd'. apply H. right. exact Hd'.
    + exists s'. split; [exact Hrun | exact He].
Qed.

Section Ready.

Variable env : environment.
Hypothesis Hhandled : handled_answers env.
Hypothesis Hready : ready env.

Lemma ready_check_directories (s : state) :
  exists s', check_directories env s = (Ok tt, s')
             /\ errors_of s' = errors_of s.
Proof.
  unfold check_directories. rewrite bind_print.
  destruct Hready as [Hdirs _].
  match goal with
  | |- context [for_each required_dirs _ ?st] =>
      destruct (for_each_directory_ready env required_dirs st Hdirs)
        as [s' [Hrun He]]
  end.
  exists s'. split; [exact Hrun | exact He].
Qed.

Lemma ready_check_docker_containers (s : state) :
  exists s', check_docker_containers env s = (Ok tt, s')
             /\ errors_of s' = errors_of s.
Proof.
  destruct Hready as [_ [[result [Hrun Hall]] _]].
  eexists. split; [apply (check_docker_containers_completed env s result Hrun)|].
  cbn [errors_of validator errors]. fold (listed result).
  rewrite all_filter_nil; [apply app_nil_r|].
  intros c Hc. apply Hall, contains_In in Hc. rewrite Hc. reflexivity.
Qed.

Lemma ready_check_network_connectivity (s : state) :
  exists s', check_network_connectivity env s = (Ok tt, s')
             /\ errors_of s' = errors_of s.
Proof.
  destruct Hready as [_ [_ [[result [Hrun Hrc]] _]]].
  unfold check_network_connectivity. rewrite bind_print.
  unfold try_except, run. rewrite Hrun. cbn [os_call].
  rewrite bind_ret, Hrc. cbn [Z.eqb]. rewrite log_success_runs.
  eexists. split; reflexivity.
Qed.

Lemma ready_check_notebook_files (s : state) :
  exists s', check_notebook_files env s = (Ok tt, s')
             /\ errors_of s' = errors_of s.
Proof.
  destruct Hready as [_ [_ [_ Hnb]]].
  unfold check_notebook_files. rewrite bind_print.
  unfold os_path_exists. rewrite Hnb, bind_ret, log_success_runs.
  eexists. split; reflexivity.
Qed.

Lemma ready_main (s0 : state) : fst (main env s0) = Ok 0%Z.
Proof.
  rewrite main_from_init.
  match goal with |- fst (_ ?st) = _ => set (s1 := st) end.
  assert (E1 : errors_of s1 = []) by reflexivity. clearbody s1.
  destruct (ready_check_directories s1) as [s2 [H1 E2]].
  rewrite (bind_Ok _ _ _ _ _ H1).
  destruct (ready_check_docker_containers s2) as [s3 [H2 E3]].
  rewrite (bind_Ok _ _ _ _ _ H2).
  destruct (ready_check_network_connectivity s3) as [s4 [H3 E4]].
  rewrite (bind_Ok _ _ _ _ _ H3).
  destruct (returns_clean (check_ports env) s4 (returns_check_ports env Hhandled))
    as [[] [s5 [H4 E5]]]; [preserves_auto|].
  rewrite (bind_Ok _ _ _ _ _ H4).
  destruct (returns_clean (check_vertica_status env) s5
              (returns_check_vertica_status env Hhandled))
    as [[] [s6 [H5 E6]]]; [preserves_auto|].
  rewrite (bind_Ok _ _ _ _ _ H5).
  destruct (returns_clean (check_kafka_connectivity env) s6
              (returns_check_kafka_connectivity env Hhandled))
    as [[] [s7 [H6 E7]]]; [preserves_auto|].
  rewrite (bind_Ok _ _ _ _ _ H6).
  destruct (ready_check_notebook_files s7) as [s8 [H7 E8]].
  rewrite (bind_Ok _ _ _ _ _ H7).
  unfold bind. rewrite generate_report_runs. unfold ret. cbn [fst].
  assert (E : errors (validator s8) = []) by (unfold errors_of in *; congruence).
  rewrite E. reflexivity.
Qed.

End Ready.

(** X14: in an environment that raises only what the routines take, the
    exit code is 0 when the pipeline is ready: ports that refuse, a
    database that is not up and a Kafka name that does not resolve do not
    change it. *)
Theorem ready_means_exit_0 (env : environment) :
  handled_answers env -> ready env -> fst (run_script env) = Exited 0%Z.
Proof.
  intros Hh Hr. pose proof (ready_main env Hh Hr initial_state) as H.
  unfold run_script. destruct (main env initial_state) as [[c|e] s];
    cbn [fst] in *; [|discriminate H].
  injection H as H. subst c. reflexivity.
Qed.

Lemma ready_means_exit_0_witness : fst (run_script warnings_only_env) = Exited 0%Z.
Proof.
  apply (ready_means_exit_0 warnings_only_env).
  - repeat split.
    + intros path e H. discriminate H.
    + intros argv e H. discriminate H.
    + intros host port timeout e H. cbn in H.
      destruct (port =? 8888)%Z; [discriminate H|].
      destruct (port =? 15433)%Z; discriminate H.
    + intros host e H. injection H as H. subst e. reflexivity.
  - split; [|split; [|split]].
    + intros directory H. reflexivity.
    + exists (mkCompletedProcess 0 all_names ""). split; [reflexivity|].
      intros container H.
      destruct H as [H|[H|[H|[H|[]]]]]; subst container; vm_compute; tauto.
    + exists (mkCompletedProcess 0 all_names ""). split; reflexivity.
    + reflexivity.
Defined.

(** ** The report and the logs *)

Lemma report_lists_error (v : PipelineValidator) (message : string) :
  In message (errors v) -> In (bullet message) (report_lines v).
Proof.
  intros H. unfold report_lines.
  destruct (errors v) as [|e es]; [destruct H|].
  cbn [truthy negb andb].
  apply in_or_app; right. apply in_or_app; right. apply in_or_app; right.
  apply in_or_app; left. right. apply in_or_app; left.
  apply in_map. exact H.
Qed.

Lemma report_lists_warning (v : PipelineValidator) (message : string) :
  In message (warnings v) -> In (bullet message) (report_lines v).
Proof.
  intros H. unfold report_lines.
  destruct (warnings v) as [|w ws]; [destruct H|].
  cbn [truthy].
  apply in_or_app; right. apply in_or_app; right. apply in_or_app; left.
  right. apply in_map. exact H.
Qed.

(** X15: when the script exits, every entry of its errors list and of its
    warnings list stands in the output as a line of the report. *)
Theorem report_lists_every_entry (env : environment) (s : state) (code : Z)
    (message : string) :
  run_script env = (Exited code, s) ->
  In message (errors (validator s)) \/ In message (warnings (validator s)) ->
  In (bullet message) (sys_stdout s).
Proof.
  unfold run_script. intros H Hin.
  destruct (main env initial_state) as [[c|e] s'] eqn:Hmain;
    [|discriminate H].
  injection H as Hc Hs. subst c s'.
  unfold main in Hmain.
  do 11 (apply bind_Ok_inv in Hmain; destruct Hmain as [? [? [_ Hmain]]]).
  unfold bind in Hmain. rewrite generate_report_runs in Hmain.
  unfold ret in Hmain. injection Hmain as _ Hs. subst s.
  cbn [validator sys_stdout] in *. apply in_or_app. right.
  destruct Hin as [Hin|Hin];
    [apply report_lists_error | apply report_lists_warning]; exact Hin.
Qed.

Lemma report_lists_every_entry_witness :
  In (bullet "Container not running: ci-vertica-db")
     (sys_stdout (snd (run_script two_running_env))).
Proof.
  apply (report_lists_every_entry two_running_env
           (snd (run_script two_running_env)) 1%Z
           "Container not running: ci-vertica-db").
  - vm_compute. reflexivity.
  - left. vm_compute. tauto.
Defined.

(** ** Reading the output of [docker ps] *)

Lemma append_assoc (a b c : string) : ((a ++ b) ++ c = a ++ (b ++ c))%string.
Proof. induction a as [|x a IH]; cbn; [|rewrite IH]; reflexivity. Qed.

Lemma append_nil_r (a : string) : (a ++ "")%string = a.
Proof. induction a as [|x a IH]; cbn; [|rewrite IH]; reflexivity. Qed.

Lemma length_append (a b : string) :
  String.length (a ++ b) = String.length a + String.length b.
Proof. induction a as [|x a IH]; cbn; [|rewrite IH]; reflexivity. Qed.

Lemma list_ascii_append (a b : string) :
  list_ascii_of_string (a ++ b)
  = (list_ascii_of_string a ++ list_ascii_of_string b)%list.
Proof. induction a as [|x a IH]; cbn; [|rewrite IH]; reflexivity. Qed.

Lemma string_of_list_app (l1 l2 : list ascii) :
  string_of_list_ascii (l1 ++ l2)
  = (string_of_list_ascii l1 ++ string_of_list_ascii l2)%string.
Proof. induction l1 as [|x l1 IH]; cbn; [|rewrite IH]; reflexivity. Qed.

Lemma rev_append (a b : string) :
  PyStr.rev (a ++ b) = (PyStr.rev b ++ PyStr.rev a)%string.
Proof.
  unfold PyStr.rev. rewrite list_ascii_append, rev_app_distr.
  apply string_of_list_app.
Qed.

Lemma rev_rev (a : string) : PyStr.rev (PyStr.rev a) = a.
Proof.
  unfold PyStr.rev. rewrite list_ascii_of_string_of_list_ascii, rev_involutive.
  apply string_of_list_ascii_of_string.
Qed.

Lemma drop_any_name_char (ps : list string) (c : ascii) (s : string) :
  forallb starts_off_names ps = true ->
  name_char c = true ->
  PyStr.drop_any ps (String c s) = None.
Proof.
  intros Hps Hc. induction ps as [|p ps IH]; [reflexivity|].
  cbn [forallb] in Hps. apply andb_true_iff in Hps. destruct Hps as [Hp Hps].
  cbn [PyStr.drop_any]. destruct p as [|a p]; [discriminate Hp|].
  cbn [PyStr.drop_prefix]. destruct (Ascii.eqb a c) eqn:Hac.
  - apply Ascii.eqb_eq in Hac. subst a. cbn [starts_off_names] in Hp.
    rewrite Hc in Hp. discriminate Hp.
  - apply IH. exact Hps.
Qed.

Lemma whitespace_off_names : forallb starts_off_names PyStr.whitespace = true.
Proof. vm_compute. reflexivity. Qed.

Lemma rev_whitespace_off_names :
  forallb starts_off_names (map PyStr.rev PyStr.whitespace) = true.
Proof. vm_compute. reflexivity. Qed.

Lemma lstrip_with_name_char (fuel : nat) (ps : list string) (c : ascii)
    (s : string) :
  forallb starts_off_names ps = true ->
  name_char c = true ->
  PyStr.lstrip_with fuel ps (String c s) = String c s.
Proof.
  intros Hps Hc. destruct fuel; [reflexivity|].
  cbn [PyStr.lstrip_with]. rewrite (drop_any_name_char ps c s Hps Hc).
  reflexivity.
Qed.

(** A name ends with a character of a name. *)
Lemma is_name_last (name : string) :
  is_name name = true ->
  exists s c, name = (s ++ String c "")%string /\ name_char c = true.
Proof.
  destruct name as [|a name]; [discriminate|]. revert a.
  induction name as [|b name IH]; intros a H.
  - exists EmptyString, a. split; [reflexivity|].
    cbn in H. apply andb_true_iff in H. exact (proj1 H).
  - cbn [is_name list_ascii_of_string forallb] in H.
    apply andb_true_iff in H. destruct H as [_ H].
    destruct (IH b H) as [s [c [Heq Hc]]].
    exists (String a s), c. split; [cbn; rewrite <- Heq; reflexivity | exact Hc].
Qed.

Lemma is_name_first (name : string) :
  is_name name = true ->
  exists c s, name = String c s /\ name_char c = true.
Proof.
  destruct name as [|a name]; [discriminate|]. intros H.
  exists a, name. split; [reflexivity|].
  cbn in H. apply andb_true_iff in H. exact (proj1 H).
Qed.

Lemma ps_output_joined (names : list string) :
  names <> [] -> ps_output names = (joined names ++ nl)%string.
Proof.
  induction names as [|n names IH]; intros H; [contradiction|].
  destruct names as [|n' names].
  - reflexivity.
  - change (ps_output (n :: n' :: names))
      with (n ++ nl ++ ps_output (n' :: names))%string.
    change (joined (n :: n' :: names))
      with (n ++ nl ++ joined (n' :: names))%string.
    rewrite IH by discriminate. rewrite !append_assoc. reflexivity.
Qed.

Lemma joined_last (names : list string) :
  names <> [] -> forallb is_name names = true ->
  exists s c, joined names = (s ++ String c "")%string /\ name_char c = true.
Proof.
  induction names as [|n names IH]; intros Hne H; [contradiction|].
  cbn [forallb] in H. apply andb_true_iff in H. destruct H as [Hn H].
  destruct names as [|n' names].
  - cbn [joined]. apply is_name_last. exact Hn.
  - destruct (IH ltac:(discriminate) H) as [s [c [Heq Hc]]].
    exists (n ++ nl ++ s)%string, c. split; [|exact Hc].
    change (joined (n :: n' :: names))
      with (n ++ nl ++ joined (n' :: names))%string.
    rewrite Heq, !append_assoc. reflexivity.
Qed.

Lemma joined_first (names : list string) :
  names <> [] -> forallb is_name names = true ->
  exists c s, joined names = String c s /\ name_char c = true.
Proof.
  destruct names as [|n names]; intros Hne H; [contradiction|].
  cbn [forallb] in H. apply andb_true_iff in H. destruct H as [Hn _].
  destruct (is_name_first n Hn) as [c [s [Heq Hc]]]. subst n.
  destruct names as [|n' names].
  - exists c, s. split; [reflexivity | exact Hc].
  - exists c, (s ++ nl ++ joined (n' :: names))%string.
    split; [reflexivity | exact Hc].
Qed.

(** [strip] takes the last newline off the output and nothing else. *)
Lemma strip_ps_output (names : list string) :
  names <> [] -> forallb is_name names = true ->
  PyStr.strip (ps_output names) = joined names.
Proof.
  intros Hne H. rewrite (ps_output_joined names Hne).
  destruct (joined_first names Hne H) as [c [s [Hfirst Hc]]].
  destruct (joined_last names Hne H) as [t [d [Hlast Hd]]].
  unfold PyStr.strip, PyStr.lstrip.
  rewrite Hfirst at 2. cbn [String.append].
  rewrite (lstrip_with_name_char _ _ c _ whitespace_off_names Hc).
  change (String c (s ++ nl)) with (String c s ++ nl)%string.
  rewrite <- Hfirst, Hlast. unfold PyStr.rstrip.
  rewrite length_append, length_append. cbn [String.length nl].
  rewrite !rev_append.
  replace (String.length t + 1 + 1) with (S (S (String.length t))) by lia.
  change (PyStr.rev nl) with nl. change (PyStr.rev (String d "")) with (String d "").
  cbn [String.append nl].
  change (PyStr.lstrip_with (S (S (String.length t))) (map PyStr.rev PyStr.whitespace)
            (String PyStr.LF (String d (PyStr.rev t))))
    with (PyStr.lstrip_with (S (String.length t)) (map PyStr.rev PyStr.whitespace)
            (String d (PyStr.rev t))).
  rewrite (lstrip_with_name_char _ _ d _ rev_whitespace_off_names Hd).
  change (String d (PyStr.rev t)) with (String d "" ++ PyStr.rev t)%string.
  rewrite rev_append, rev_rev. reflexivity.
Qed.

Lemma name_char_not_LF (c : ascii) :
  name_char c = true -> Ascii.eqb c PyStr.LF = false.
Proof.
  intros H. destruct (Ascii.eqb c PyStr.LF) eqn:E; [|reflexivity].
  apply Ascii.eqb_eq in E. subst c. discriminate H.
Qed.

Lemma split_name (name : string) :
  forallb name_char (list_ascii_of_string name) = true ->
  PyStr.split PyStr.LF name = [name].
Proof.
  induction name as [|c name IH]; intros H; [reflexivity|].
  cbn [list_ascii_of_string forallb] in H. apply andb_true_iff in H.
  destruct H as [Hc H]. cbn [PyStr.split].
  rewrite (name_char_not_LF c Hc), (IH H). reflexivity.
Qed.

Lemma split_name_line (name rest : string) :
  forallb name_char (list_ascii_of_string name) = true ->
  PyStr.split PyStr.LF (name ++ nl ++ rest)
  = name :: PyStr.split PyStr.LF rest.
Proof.
  induction name as [|c name IH]; intros H.
  - reflexivity.
  - cbn [list_ascii_of_string forallb] in H. apply andb_true_iff in H.
    destruct H as [Hc H]. cbn [String.append PyStr.split].
    rewrite (name_char_not_LF c Hc), (IH H). reflexivity.
Qed.

Lemma is_name_chars (name : string) :
  is_name name = true -> forallb name_char (list_ascii_of_string name) = true.
Proof. destruct name; [discriminate | intros H; exact H]. Qed.

Lemma split_joined (names : list string) :
  names <> [] -> forallb is_name names = true ->
  PyStr.split PyStr.LF (joined names) = names.
Proof.
  induction names as [|n names IH]; intros Hne H; [contradiction|].
  cbn [forallb] in H. apply andb_true_iff in H. destruct H as [Hn H].
  destruct names as [|n' names].
  - cbn [joined]. apply split_name, is_name_chars, Hn.
  - change (joined (n :: n' :: names))
      with (n ++ nl ++ joined (n' :: names))%string.
    rewrite (split_name_line n _ (is_name_chars n Hn)).
    rewrite IH; [reflexivity | discriminate | exact H].
Qed.

(** X16: for the output [docker ps] writes, one container name and a
    newline for each running container, the lines [check_docker_containers]
    reads are those names, in order. *)
Theorem listed_ps_output (names : list string) (status : Z) (err : string) :
  names <> [] ->
  forallb is_name names = true ->
  listed (mkCompletedProcess status (ps_output names) err) = names.
Proof.
  intros Hne H. unfold listed. cbn [stdout].
  rewrite (strip_ps_output names Hne H). apply split_joined; assumption.
Qed.

Lemma listed_ps_output_witness :
  listed (mkCompletedProcess 0 (ps_output ["spark-master"; "pg-db"]) "")
  = ["spark-master"; "pg-db"].
Proof.
  apply (listed_ps_output ["spark-master"; "pg-db"] 0%Z "").
  - discriminate.
  - vm_compute. reflexivity.
Defined.
